(** * The browser client of the pipeline generator (static/js/app.js)

    A shallow embedding of the page script: its two globals, the part of
    the document it reads and writes, and its event handlers.  The script
    is event driven; every [async] handler is cut at its suspension point
    into the part that runs before the [await] and the part that runs when
    the awaited promise settles. *)

From Stdlib Require Import List NArith Arith Bool Lia String Ascii DecimalString.
Import ListNotations.


Set Warnings "-register-all".

(** ** Strings

    A JavaScript string is a sequence of UTF-16 code units. *)

Definition jsstring := list N.

(** An ASCII literal of the source. *)
Definition lit (s : string) : jsstring :=
  map N_of_ascii (list_ascii_of_string s).

(** [String(n)] for a non-negative integer [n]. *)
Definition decimal (n : nat) : jsstring :=
  lit (NilEmpty.string_of_uint (Nat.to_uint n)).

Definition jsstring_eqb (a b : jsstring) : bool :=
  if list_eq_dec N.eq_dec a b then true else false.

Definition is_empty (s : jsstring) : bool :=
  match s with
  | [] => true
  | _ :: _ => false
  end.

(** WhiteSpace and LineTerminator code points, as [String.prototype.trim]
    strips them. *)
Definition is_whitespace (c : N) : bool :=
  ((9 <=? c) && (c <=? 13) || (c =? 32) || (c =? 160) || (c =? 5760)
   || (8192 <=? c) && (c <=? 8202) || (c =? 8232) || (c =? 8233)
   || (c =? 8239) || (c =? 8287) || (c =? 12288) || (c =? 65279))%N.

Fixpoint trimStart (s : jsstring) : jsstring :=
  match s with
  | [] => []
  | c :: rest => if is_whitespace c then trimStart rest else s
  end.

Definition trimEnd (s : jsstring) : jsstring := rev (trimStart (rev s)).

Definition trim (s : jsstring) : jsstring := trimEnd (trimStart s).

(** The non-ASCII markers of the source. *)
Definition check_mark : jsstring := [10003%N; 32%N].      (* U+2713, space *)
Definition warning_mark : jsstring := [9888%N; 32%N].     (* U+26A0, space *)
Definition error_mark : jsstring := [10007%N; 32%N].      (* U+2717, space *)
Definition inbox_tray : jsstring := [55357%N; 56549%N].   (* U+1F4E5 *)

(** ** Values

    What [response.json()] can resolve to, and [undefined] for a property
    that is not there.  The script never computes with a number: it only
    tests one for truthiness or converts it to a string, so a number is
    kept as those two observations. *)

Inductive jsval : Type :=
| VUndefined
| VNull
| VBool (b : bool)
| VNum (nonzero : bool) (shown : jsstring)   (* neither 0 nor NaN; String(n) *)
| VStr (s : jsstring)
| VArr (items : list jsval)
| VObj (props : list (jsstring * jsval)).

(** ToBoolean. *)
Definition truthy (v : jsval) : bool :=
  match v with
  | VUndefined | VNull => false
  | VBool b => b
  | VNum nonzero _ => nonzero
  | VStr s => negb (is_empty s)
  | VArr _ | VObj _ => true
  end.

Fixpoint has_key (name : jsstring) (props : list (jsstring * jsval)) : bool :=
  match props with
  | [] => false
  | (k, _) :: rest => jsstring_eqb k name || has_key name rest
  end.

(** ToString, [None] when the conversion throws a [TypeError].  A parsed
    object holds no function: one that has a [toString] key of its own
    hides [Object.prototype.toString] behind a value that cannot be
    called, and cannot be converted; any other object gives
    "[object Object]".  An array joins its elements with commas, [null]
    and [undefined] elements giving the empty string, and cannot be
    converted when one of its elements cannot. *)
Fixpoint toString (v : jsval) : option jsstring :=
  match v with
  | VUndefined => Some (lit "undefined")
  | VNull => Some (lit "null")
  | VBool true => Some (lit "true")
  | VBool false => Some (lit "false")
  | VNum _ shown => Some shown
  | VStr s => Some s
  | VArr items =>
      (fix join (l : list jsval) : option jsstring :=
         match l with
         | [] => Some []
         | x :: rest =>
             match
               match x with
               | VUndefined | VNull => Some []
               | _ => toString x
               end,
               match rest with
               | [] => Some []
               | _ :: _ => option_map (app (lit ",")) (join rest)
               end
             with
             | Some first, Some others => Some (first ++ others)
             | _, _ => None
             end
         end) items
  | VObj props =>
      if has_key (lit "toString") props then None
      else Some (lit "[object Object]")
  end.

(** [a || b]. *)
Definition or_else (a b : jsval) : jsval := if truthy a then a else b.

(** [v === 'text']. *)
Definition strict_eq_str (v : jsval) (text : jsstring) : bool :=
  match v with
  | VStr s => jsstring_eqb s text
  | _ => false
  end.

(** The string a [DOMString?] attribute such as [textContent] takes when
    it is assigned [v]: [null] and [undefined] clear it. *)
Definition domString (v : jsval) : option jsstring :=
  match v with
  | VUndefined | VNull => Some []
  | _ => toString v
  end.

Fixpoint lookup (name : jsstring) (props : list (jsstring * jsval)) : jsval :=
  match props with
  | [] => VUndefined
  | (k, v) :: rest => if jsstring_eqb k name then v else lookup name rest
  end.

(** [v.name] where it can be read, for the names this script reads: an
    object gives what it holds under the name, and none of the names is
    defined on a string, a number, a boolean or an array. *)
Definition field (v : jsval) (name : string) : jsval :=
  match v with
  | VObj props => lookup (lit name) props
  | _ => VUndefined
  end.

(** [null] and [undefined], of which no property can be read. *)
Definition nullish (v : jsval) : bool :=
  match v with
  | VUndefined | VNull => true
  | _ => false
  end.

(** ** The document and the two globals

    The elements the script fetches by id, and the properties of them it
    touches.  The markup of the page is not part of the script; every
    element below is taken to exist. *)

Inductive element : Type :=
| health_status | task_description | input_type | output_type | ollama_model
| generate_btn | loading | results_section | test_section | status_message
| pipeline_code | synthetic_prompt | test_input | test_btn | test_output
| test_result.

Inductive attr : Type := textContent | className | display | value.

Definition element_eqb (a b : element) : bool :=
  match a, b with
  | health_status, health_status | task_description, task_description
  | input_type, input_type | output_type, output_type
  | ollama_model, ollama_model | generate_btn, generate_btn
  | loading, loading | results_section, results_section
  | test_section, test_section | status_message, status_message
  | pipeline_code, pipeline_code | synthetic_prompt, synthetic_prompt
  | test_input, test_input | test_btn, test_btn
  | test_output, test_output | test_result, test_result => true
  | _, _ => false
  end.

Definition attr_eqb (a b : attr) : bool :=
  match a, b with
  | textContent, textContent | className, className
  | display, display | value, value => true
  | _, _ => false
  end.

(** One [div.example-item] of [#examples-container].  [exampleId] is its
    [data-example-id], which is also the number in the ids of its two
    textareas; [exampleNumber] is the text of its [span.example-number]. *)
Record ExampleItem : Type := {
  exampleId : nat;
  exampleNumber : jsstring;
  inputValue : jsstring;
  outputValue : jsstring
}.

(** One [a.download-link] of [#download-links]. *)
Record Link : Type := {
  href : jsstring;
  linkClass : jsstring;
  linkText : jsstring;
  download : jsstring
}.

(** The payload [collectFormData] builds. *)
Record FormData : Type := {
  taskDescription : jsstring;
  inputType : jsstring;
  outputType : jsstring;
  ollamaModel : jsstring;
  examples : list (jsstring * jsstring)
}.

(** A call of [fetch].  The body is kept as the object that is handed to
    [JSON.stringify]. *)
Inductive RequestBody : Type :=
| NoBody
| GenerateBody (data : FormData)
| TestBody (session : jsval) (testInput : jsstring).

Record Request : Type := {
  url : jsstring;
  post : bool;
  body : RequestBody
}.

(** A suspended [async] function, waiting for its promise. *)
Inductive Awaiting : Type :=
| HealthFetch | GenerateFetch | TestFetch | ClipboardWrite.

(** A callback handed to [setTimeout]. *)
Inductive Timer : Type :=
| HideError
| RestoreStatus (originalContent originalClass : jsstring).

Record Page : Type := {
  exampleCount : nat;
  sessionId : jsval;
  prop : element -> attr -> jsstring;
  disabled : element -> bool;
  exampleItems : list ExampleItem;
  downloadLinks : list Link;
  sent : list Request;          (* every request issued so far, oldest first *)
  awaiting : list Awaiting;
  timers : list Timer
}.

Definition set_exampleCount (n : nat) (p : Page) : Page :=
  {| exampleCount := n; sessionId := sessionId p; prop := prop p;
     disabled := disabled p; exampleItems := exampleItems p;
     downloadLinks := downloadLinks p; sent := sent p;
     awaiting := awaiting p; timers := timers p |}.

Definition set_sessionId (v : jsval) (p : Page) : Page :=
  {| exampleCount := exampleCount p; sessionId := v; prop := prop p;
     disabled := disabled p; exampleItems := exampleItems p;
     downloadLinks := downloadLinks p; sent := sent p;
     awaiting := awaiting p; timers := timers p |}.

Definition set_prop (e : element) (a : attr) (s : jsstring) (p : Page) : Page :=
  {| exampleCount := exampleCount p; sessionId := sessionId p;
     prop := fun e' a' =>
               if element_eqb e e' && attr_eqb a a' then s else prop p e' a';
     disabled := disabled p; exampleItems := exampleItems p;
     downloadLinks := downloadLinks p; sent := sent p;
     awaiting := awaiting p; timers := timers p |}.

Definition set_disabled (e : element) (b : bool) (p : Page) : Page :=
  {| exampleCount := exampleCount p; sessionId := sessionId p; prop := prop p;
     disabled := fun e' => if element_eqb e e' then b else disabled p e';
     exampleItems := exampleItems p;
     downloadLinks := downloadLinks p; sent := sent p;
     awaiting := awaiting p; timers := timers p |}.

Definition set_exampleItems (l : list ExampleItem) (p : Page) : Page :=
  {| exampleCount := exampleCount p; sessionId := sessionId p; prop := prop p;
     disabled := disabled p; exampleItems := l;
     downloadLinks := downloadLinks p; sent := sent p;
     awaiting := awaiting p; timers := timers p |}.

Definition set_downloadLinks (l : list Link) (p : Page) : Page :=
  {| exampleCount := exampleCount p; sessionId := sessionId p; prop := prop p;
     disabled := disabled p; exampleItems := exampleItems p;
     downloadLinks := l; sent := sent p;
     awaiting := awaiting p; timers := timers p |}.

(** [fetch(...)] followed by [await]: the request goes out and the caller
    is suspended. *)
Definition fetch (r : Request) (k : Awaiting) (p : Page) : Page :=
  {| exampleCount := exampleCount p; sessionId := sessionId p; prop := prop p;
     disabled := disabled p; exampleItems := exampleItems p;
     downloadLinks := downloadLinks p; sent := sent p ++ [r];
     awaiting := awaiting p ++ [k]; timers := timers p |}.

Definition set_awaiting (l : list Awaiting) (p : Page) : Page :=
  {| exampleCount := exampleCount p; sessionId := sessionId p; prop := prop p;
     disabled := disabled p; exampleItems := exampleItems p;
     downloadLinks := downloadLinks p; sent := sent p;
     awaiting := l; timers := timers p |}.

Definition set_timers (l : list Timer) (p : Page) : Page :=
  {| exampleCount := exampleCount p; sessionId := sessionId p; prop := prop p;
     disabled := disabled p; exampleItems := exampleItems p;
     downloadLinks := downloadLinks p; sent := sent p;
     awaiting := awaiting p; timers := l |}.

Definition setTimeout (t : Timer) (p : Page) : Page :=
  set_timers (timers p ++ [t]) p.

(** ** Completions

    A statement either completes normally or throws.  Every value thrown in
    this script is an [Error], and the only thing a [catch] reads of it is
    its [message].  What was written to the page before the throw stays
    written. *)

Inductive completion (A : Type) : Type :=
| Normal (a : A)
| Throw (message : jsstring).

Arguments Normal {A} a.
Arguments Throw {A} message.

Definition js (A : Type) : Type := Page -> Page * completion A.

Definition ret {A : Type} (a : A) : js A := fun p => (p, Normal a).

Definition throw {A : Type} (message : jsstring) : js A :=
  fun p => (p, Throw message).

Definition bind {A B : Type} (m : js A) (k : A -> js B) : js B :=
  fun p =>
    match m p with
    | (p', Normal a) => k a p'
    | (p', Throw message) => (p', Throw message)
    end.

(** A statement that only writes to the page. *)
Definition exec (f : Page -> Page) : js unit := fun p => (f p, Normal tt).

Declare Scope js_scope.
Delimit Scope js_scope with js.
Notation "x <- m ;; k" := (bind m (fun x => k))
  (at level 61, m at next level, right associativity) : js_scope.
Notation "m ;; k" := (bind m (fun _ => k))
  (at level 61, right associativity) : js_scope.

(** [try { body } catch (error) { handler(error.message) }]. *)
Definition try_catch (body : js unit) (handler : jsstring -> Page -> Page)
  : Page -> Page :=
  fun p =>
    match body p with
    | (p', Normal _) => p'
    | (p', Throw message) => handler message p'
    end.

(** The same with a [finally] block. *)
Definition try_catch_finally (body : js unit)
  (handler : jsstring -> Page -> Page) (finally : Page -> Page)
  : Page -> Page :=
  fun p => finally (try_catch body handler p).

(** ** How a fetch ends

    [fetch] rejects, or resolves to a response whose [ok] flag tells a
    2xx status from any other; [response.json()] then rejects, or resolves
    to the parsed body. *)

Inductive Body : Type :=
| Unreadable (message : jsstring)
| Json (v : jsval).

Inductive Outcome : Type :=
| Rejected (message : jsstring)
| Response (ok : bool) (b : Body).

Definition awaited_response (o : Outcome) : js (bool * Body) :=
  match o with
  | Rejected message => throw message
  | Response ok b => ret (ok, b)
  end.

Definition awaited_json (b : Body) : js jsval :=
  match b with
  | Unreadable message => throw message
  | Json v => ret v
  end.

(** [s.includes(sub)]. *)
Fixpoint startsWith (sub s : jsstring) : bool :=
  match sub, s with
  | [], _ => true
  | _ :: _, [] => false
  | a :: sub', b :: s' => N.eqb a b && startsWith sub' s'
  end.

Fixpoint includes (s sub : jsstring) : bool :=
  startsWith sub s ||
  match s with
  | [] => false
  | _ :: s' => includes s' sub
  end.

(** ** Status messaging *)

Definition showError (message : jsstring) (p : Page) : Page :=
  let p := set_prop results_section display (lit "block") p in
  let p := set_prop status_message className (lit "message error") p in
  let p := set_prop status_message textContent (error_mark ++ message) p in
  setTimeout HideError p.

(** What a text is after its serialisation as [innerHTML] has been parsed
    again as the content of an ordinary element: the escapes of the
    serialisation are undone, but the parser has turned every CR LF and
    every CR into LF and has dropped every U+0000. *)
Fixpoint reparse (s : jsstring) : jsstring :=
  match s with
  | [] => []
  | c :: rest =>
      if (c =? 13)%N
      then 10%N :: match rest with
                   | [] => []
                   | d :: rest' =>
                       if (d =? 10)%N then reparse rest' else reparse rest
                   end
      else if (c =? 0)%N then reparse rest
      else c :: reparse rest
  end.

(** [innerHTML] of the status message is saved, and assigned again by the
    timer.  The element only ever holds text; what is kept here is that
    text, and [fire] applies [reparse] where the saved markup is parsed. *)
Definition showSuccess (message : jsstring) (p : Page) : Page :=
  let originalContent := prop p status_message textContent in
  let originalClass := prop p status_message className in
  let p := set_prop status_message className (lit "message success") p in
  let p := set_prop status_message textContent (check_mark ++ message) p in
  setTimeout (RestoreStatus originalContent originalClass) p.

(** The body of a timer callback. *)
Definition fire (t : Timer) (p : Page) : Page :=
  match t with
  | HideError =>
      if includes (prop p status_message className) (lit "error")
      then set_prop results_section display (lit "none") p
      else p
  | RestoreStatus originalContent originalClass =>
      let p := set_prop status_message textContent (reparse originalContent) p in
      set_prop status_message className originalClass p
  end.

(** ** The list of examples *)

Definition label (n : nat) : jsstring := lit "Example " ++ decimal n.

Definition addExample (p : Page) : Page :=
  let p := set_exampleCount (exampleCount p + 1) p in
  let exampleDiv :=
    {| exampleId := exampleCount p;
       exampleNumber := label (exampleCount p);
       inputValue := [];
       outputValue := [] |} in
  set_exampleItems (exampleItems p ++ [exampleDiv]) p.

(** [document.querySelector('[data-example-id=...]')]: the first match in
    document order. *)
Definition querySelector_exampleId (id : nat) (items : list ExampleItem)
  : option ExampleItem :=
  find (fun e => exampleId e =? id) items.

(** The children left once the first item with this id is detached. *)
Fixpoint detach (id : nat) (items : list ExampleItem) : list ExampleItem :=
  match items with
  | [] => []
  | e :: rest => if exampleId e =? id then rest else e :: detach id rest
  end.

Definition set_exampleNumber (s : jsstring) (e : ExampleItem) : ExampleItem :=
  {| exampleId := exampleId e; exampleNumber := s;
     inputValue := inputValue e; outputValue := outputValue e |}.

(** The [forEach((example, index) => ...)] of [removeExample], from
    [index] on. *)
Fixpoint renumber (index : nat) (items : list ExampleItem) : list ExampleItem :=
  match items with
  | [] => []
  | example :: rest =>
      set_exampleNumber (label (index + 1)) example :: renumber (S index) rest
  end.

Definition removeExample (id : nat) (p : Page) : Page :=
  let p :=
    match querySelector_exampleId id (exampleItems p) with
    | Some _ => set_exampleItems (detach id (exampleItems p)) p
    | None => p
    end in
  let remainingExamples := exampleItems p in
  set_exampleItems (renumber 0 remainingExamples) p.

(** ** Collecting and validating the form *)

(** [document.getElementById('example-input-' + id)] and its sibling for
    the output: the textareas of the first item created under this id.
    The item at hand carries the id itself, so the search cannot fail;
    [self] stands for the case that does not arise. *)
Definition getElementById_example (id : nat) (self : ExampleItem)
  (items : list ExampleItem) : ExampleItem :=
  match find (fun e => exampleId e =? id) items with
  | Some e => e
  | None => self
  end.

Definition collectFormData (p : Page) : FormData :=
  let taskDescription := trim (prop p task_description value) in
  let inputType := prop p input_type value in
  let outputType := prop p output_type value in
  let ollamaModel :=
    let model := trim (prop p ollama_model value) in
    if is_empty model then lit "llama3.2" else model in
  let exampleItems := exampleItems p in
  let examples :=
    flat_map
      (fun item =>
         let inputId := exampleId item in
         let outputId := exampleId item in
         let input :=
           trim (inputValue (getElementById_example inputId item exampleItems)) in
         let output :=
           trim (outputValue (getElementById_example outputId item exampleItems)) in
         if negb (is_empty input) && negb (is_empty output)
         then [(input, output)]
         else [])
      exampleItems in
  {| taskDescription := taskDescription; inputType := inputType;
     outputType := outputType; ollamaModel := ollamaModel;
     examples := examples |}.

Definition validateFormData (data : FormData) (p : Page) : Page * bool :=
  if is_empty (taskDescription data)
  then (showError (lit "Please provide a task description") p, false)
  else if List.length (examples data) =? 0
  then (showError (lit "Please provide at least one example") p, false)
  else (p, true).

(** ** Generating a pipeline *)

(** Up to [await fetch(...)]. *)
Definition generatePipeline (p : Page) : Page :=
  let data := collectFormData p in
  let (p, valid) := validateFormData data p in
  if negb valid then p
  else
    let p := set_disabled generate_btn true p in
    let p := set_prop loading display (lit "block") p in
    let p := set_prop results_section display (lit "none") p in
    fetch {| url := lit "/api/generate-pipeline"; post := true;
             body := GenerateBody data |} GenerateFetch p.

(** The link of a filename, once the filename is a string: the three
    places that use it convert the same value. *)
Definition download_link (filename : jsstring) : Link :=
  {| href := lit "/api/download/" ++ filename;
     linkClass := lit "download-link";
     linkText := inbox_tray ++ lit " Download " ++ filename;
     download := filename |}.

Definition appendChild_link (l : Link) (p : Page) : Page :=
  set_downloadLinks (downloadLinks p ++ [l]) p.

(** The wording of one engine: for a property of [null] or [undefined],
    for the [forEach] of a value that has none to call, and for a value
    that cannot be converted to a string. *)
Definition v8_typeError (v : jsval) (name : jsstring) : jsstring :=
  match v with
  | VUndefined =>
      lit "Cannot read properties of undefined (reading '" ++ name ++ lit "')"
  | VNull =>
      lit "Cannot read properties of null (reading '" ++ name ++ lit "')"
  | _ =>
      if jsstring_eqb name (lit "forEach")
      then lit "result.filesGenerated.forEach is not a function"
      else lit "Cannot convert object to primitive value"
  end.

Section Engine.

(** The message of the [TypeError] an engine raises when property [name]
    of [v] cannot be read or called; for a value that cannot be converted
    to a string, the property is its [toString].  The wording is the
    engine's. *)
Variable typeError : jsval -> jsstring -> jsstring.

(** A conversion of [v] to a string that gave [s], or threw. *)
Definition converted (v : jsval) (s : option jsstring) : js jsstring :=
  match s with
  | Some s => ret s
  | None => throw (typeError v (lit "toString"))
  end.

(** Reading [v.name]: a [TypeError] on [null] and [undefined]. *)
Definition get (v : jsval) (name : string) : js jsval :=
  if nullish v then throw (typeError v (lit name)) else ret (field v name).

(** [v.forEach(f)]; a parsed body holds no function, so only an array has
    a [forEach] to call. *)
Fixpoint each (items : list jsval) (f : jsval -> js unit) : js unit :=
  match items with
  | [] => ret tt
  | x :: rest => (f x ;; each rest f)%js
  end.

Definition forEach (v : jsval) (f : jsval -> js unit) : js unit :=
  match v with
  | VArr items => each items f
  | _ => throw (typeError v (lit "forEach"))
  end.

Definition displayResults (result : jsval) : js unit :=
  (exec (set_prop results_section display (lit "block")) ;;
   optimizationSuccess <- get result "optimizationSuccess" ;;
   (if truthy optimizationSuccess
    then
      exec (set_prop status_message className (lit "message success")) ;;
      optimizationMessage <- get result "optimizationMessage" ;;
      text <- converted optimizationMessage (toString optimizationMessage) ;;
      exec (set_prop status_message textContent (check_mark ++ text)) ;;
      exec (set_prop test_section display (lit "block"))
    else
      exec (set_prop status_message className (lit "message warning")) ;;
      optimizationMessage <- get result "optimizationMessage" ;;
      text <- converted optimizationMessage (toString optimizationMessage) ;;
      exec (set_prop status_message textContent (warning_mark ++ text)) ;;
      exec (set_prop test_section display (lit "none"))) ;;
   pipelineCode <- get result "pipelineCode" ;;
   code <- converted pipelineCode (domString pipelineCode) ;;
   exec (set_prop pipeline_code textContent code) ;;
   syntheticPrompt <- get result "syntheticPrompt" ;;
   prompt <- converted syntheticPrompt (domString syntheticPrompt) ;;
   exec (set_prop synthetic_prompt textContent prompt) ;;
   exec (set_downloadLinks []) ;;
   filesGenerated <- get result "filesGenerated" ;;
   forEach filesGenerated
     (fun filename =>
        name <- converted filename (toString filename) ;;
        exec (appendChild_link (download_link name))))%js.

(** [throw new Error(result.error || fallback)] when the response is not
    [ok]; [new Error] converts its argument to a string. *)
Definition check_ok (ok : bool) (result : jsval) (fallback : string)
  : js unit :=
  (if negb ok
   then
     error <- get result "error" ;;
     message <- converted (or_else error (VStr (lit fallback)))
                  (toString (or_else error (VStr (lit fallback)))) ;;
     throw message
   else ret tt)%js.

(** From the moment the fetch of [generatePipeline] settles. *)
Definition generatePipeline_settled (o : Outcome) : Page -> Page :=
  try_catch_finally
    (response <- awaited_response o ;;
     result <- awaited_json (snd response) ;;
     check_ok (fst response) result "Failed to generate pipeline" ;;
     sessionId <- get result "sessionId" ;;
     exec (set_sessionId sessionId) ;;
     displayResults result)%js
    showError
    (fun p =>
       let p := set_disabled generate_btn false p in
       set_prop loading display (lit "none") p).

(** ** Testing the pipeline *)

(** Up to [await fetch(...)]. *)
Definition testPipeline (p : Page) : Page :=
  let testInput := trim (prop p test_input value) in
  if is_empty testInput
  then showError (lit "Please provide test input") p
  else if negb (truthy (sessionId p))
  then showError (lit "No pipeline session found") p
  else
    let p := set_disabled test_btn true p in
    fetch {| url := lit "/api/test-pipeline"; post := true;
             body := TestBody (sessionId p) testInput |} TestFetch p.

(** From the moment the fetch of [testPipeline] settles. *)
Definition testPipeline_settled (o : Outcome) : Page -> Page :=
  try_catch_finally
    (response <- awaited_response o ;;
     result <- awaited_json (snd response) ;;
     check_ok (fst response) result "Failed to test pipeline" ;;
     exec (set_prop test_output display (lit "block")) ;;
     output <- get result "output" ;;
     text <- converted output (domString output) ;;
     exec (set_prop test_result textContent text) ;;
     note <- get result "note" ;;
     if truthy note
     then
       text <- converted note (toString note) ;;
       exec (fun p =>
               set_prop test_result textContent
                 (prop p test_result textContent
                  ++ [10%N; 10%N] ++ lit "Note: " ++ text) p)
     else ret tt)%js
    showError
    (set_disabled test_btn false).

(** ** Health check *)

(** Up to [await fetch('/api/health')]. *)
Definition checkHealth (p : Page) : Page :=
  fetch {| url := lit "/api/health"; post := false; body := NoBody |}
    HealthFetch p.

(** From the moment that fetch settles.  The [ok] flag is not looked at. *)
Definition checkHealth_settled (o : Outcome) : Page -> Page :=
  try_catch
    (response <- awaited_response o ;;
     data <- awaited_json (snd response) ;;
     status <- get data "status" ;;
     running <-
       (if strict_eq_str status (lit "healthy")
        then
          ollama <- get data "ollama" ;;
          ret (strict_eq_str ollama (lit "running"))
        else ret false) ;;
     if running : bool
     then
       exec (set_prop health_status textContent
               (check_mark ++ lit "Ollama is running")) ;;
       exec (set_prop health_status className (lit "health-status healthy"))
     else
       exec (set_prop health_status textContent
               (warning_mark ++ lit "Ollama is not running - Run: ollama serve")) ;;
       exec (set_prop health_status className (lit "health-status unhealthy")))%js
    (fun _ p =>
       let p := set_prop health_status textContent
                  (error_mark ++ lit "Cannot connect to backend") p in
       set_prop health_status className (lit "health-status unhealthy") p).

(** ** Copying to the clipboard

    The clipboard itself is not modelled, only what the page shows once
    [navigator.clipboard.writeText] has settled. *)

Definition copyToClipboard (elementId : element) (p : Page) : Page :=
  let text := prop p elementId textContent in
  set_awaiting (awaiting p ++ [ClipboardWrite]) p.

Definition copyToClipboard_settled (written : bool) (p : Page) : Page :=
  if written
  then showSuccess (lit "Copied to clipboard!") p
  else showError (lit "Failed to copy to clipboard") p.

(** ** The event loop

    One event is handled at a time, to completion.  A button that is
    disabled dispatches no click; a promise settles only while a function
    is suspended on it; a timer fires only if it was set.  [removeExample]
    is a global function that an inline handler calls with the id of its
    item; any id is let through here.  [switchTab] only moves the [active]
    class between tabs and is left out. *)

Inductive Event : Type :=
| DOMContentLoaded
| Click_add_example
| Click_remove (id : nat)
| Click_generate
| Click_test
| Click_copy (elementId : element)
| Input (e : element) (text : jsstring)
| Input_example (index : nat) (output : bool) (text : jsstring)
| FetchSettled (k : Awaiting) (o : Outcome)
| ClipboardSettled (written : bool)
| TimerFired (t : Timer).

Definition Awaiting_eqb (a b : Awaiting) : bool :=
  match a, b with
  | HealthFetch, HealthFetch | GenerateFetch, GenerateFetch
  | TestFetch, TestFetch | ClipboardWrite, ClipboardWrite => true
  | _, _ => false
  end.

Definition Timer_eqb (a b : Timer) : bool :=
  match a, b with
  | HideError, HideError => true
  | RestoreStatus c1 k1, RestoreStatus c2 k2 =>
      jsstring_eqb c1 c2 && jsstring_eqb k1 k2
  | _, _ => false
  end.

(** Take the first pending entry equal to [x] off a queue. *)
Fixpoint take {A : Type} (eqb : A -> A -> bool) (x : A) (l : list A)
  : option (list A) :=
  match l with
  | [] => None
  | y :: rest =>
      if eqb x y then Some rest
      else option_map (cons y) (take eqb x rest)
  end.

(** The user types into one of the two textareas of the example at
    position [index]. *)
Fixpoint type_into (index : nat) (output : bool) (text : jsstring)
  (items : list ExampleItem) : list ExampleItem :=
  match items, index with
  | [], _ => []
  | e :: rest, 0 =>
      {| exampleId := exampleId e; exampleNumber := exampleNumber e;
         inputValue := if output then inputValue e else text;
         outputValue := if output then text else outputValue e |} :: rest
  | e :: rest, S index' => e :: type_into index' output text rest
  end.

Definition resume (k : Awaiting) (o : Outcome) : Page -> Page :=
  match k with
  | HealthFetch => checkHealth_settled o
  | GenerateFetch => generatePipeline_settled o
  | TestFetch => testPipeline_settled o
  | ClipboardWrite => fun p => p
  end.

Definition step (ev : Event) (p : Page) : option Page :=
  match ev with
  | DOMContentLoaded => Some (addExample (checkHealth p))
  | Click_add_example => Some (addExample p)
  | Click_remove id => Some (removeExample id p)
  | Click_generate =>
      if disabled p generate_btn then None else Some (generatePipeline p)
  | Click_test =>
      if disabled p test_btn then None else Some (testPipeline p)
  | Click_copy elementId => Some (copyToClipboard elementId p)
  | Input e text => Some (set_prop e value text p)
  | Input_example index output text =>
      Some (set_exampleItems (type_into index output text (exampleItems p)) p)
  | FetchSettled ClipboardWrite _ => None
  | FetchSettled k o =>
      match take Awaiting_eqb k (awaiting p) with
      | Some rest => Some (resume k o (set_awaiting rest p))
      | None => None
      end
  | ClipboardSettled written =>
      match take Awaiting_eqb ClipboardWrite (awaiting p) with
      | Some rest => Some (copyToClipboard_settled written (set_awaiting rest p))
      | None => None
      end
  | TimerFired t =>
      match take Timer_eqb t (timers p) with
      | Some rest => Some (fire t (set_timers rest p))
      | None => None
      end
  end.

Fixpoint run (evs : list Event) (p : Page) : option Page :=
  match evs with
  | [] => Some p
  | ev :: rest =>
      match step ev p with
      | Some p' => run rest p'
      | None => None
      end
  end.

(** The page as the script finds it when it is loaded: the two globals at
    their initial values, an empty examples container, nothing requested,
    nothing pending.  What the markup puts elsewhere is left open. *)
Definition pristine (p : Page) : Prop :=
  exampleCount p = 0 /\ sessionId p = VNull /\ exampleItems p = [] /\
  sent p = [] /\ awaiting p = [] /\ timers p = [].

(** A page with empty fields everywhere, to run examples on. *)
Definition blank : Page :=
  {| exampleCount := 0; sessionId := VNull;
     prop := fun _ _ => []; disabled := fun _ => false;
     exampleItems := []; downloadLinks := [];
     sent := []; awaiting := []; timers := [] |}.

Definition Awaiting_eq_dec (a b : Awaiting) : {a = b} + {a <> b}.
Proof. decide equality. Defined.

(** How many suspended functions of one kind there are: for a fetch, how
    many of its requests are in flight. *)
Definition count_awaiting (k : Awaiting) (p : Page) : nat :=
  count_occ Awaiting_eq_dec (awaiting p) k.

(** ** Sample data

    A page and some response bodies to evaluate the handlers on. *)

(** The blank page once [DOMContentLoaded] has been handled. *)
Definition loaded : Page := addExample (checkHealth blank).

(** The loaded page with the form filled in: one description and one
    example. *)
Definition summarize_form : Page :=
  set_exampleItems
    (type_into 0 true (lit "Greeting")
       (type_into 0 false (lit "Hello world") (exampleItems loaded)))
    (set_prop task_description value (lit "Summarize text") loaded).

Definition generation_result : list (jsstring * jsval) :=
  [(lit "sessionId", VStr (lit "session-1"));
   (lit "optimizationSuccess", VBool true);
   (lit "optimizationMessage", VStr (lit "Pipeline optimized"));
   (lit "pipelineCode", VStr (lit "import dspy"));
   (lit "syntheticPrompt", VStr (lit "Generate more examples"));
   (lit "filesGenerated",
      VArr [VStr (lit "generated_pipeline.py"); VStr (lit "task_config.json")])].

Definition model_not_found : list (jsstring * jsval) :=
  [(lit "error", VStr (lit "model not found"))].

Definition empty_error : list (jsstring * jsval) :=
  [(lit "error", VStr [])].

Definition healthy_running : list (jsstring * jsval) :=
  [(lit "status", VStr (lit "healthy")); (lit "ollama", VStr (lit "running"))].

Definition healthy_stopped : list (jsstring * jsval) :=
  [(lit "status", VStr (lit "healthy")); (lit "ollama", VStr (lit "stopped"))].

(** ** Vocabulary of the properties *)

(** Every entry carries the label of its current position, counted from 1. *)
Definition labelled_by_position (items : list ExampleItem) : Prop :=
  forall i e, nth_error items i = Some e -> exampleNumber e = label (i + 1).

(** The page shows [message] as an error. *)
Definition shows_error (message : jsstring) (p : Page) : Prop :=
  prop p status_message className = lit "message error" /\
  prop p status_message textContent = error_mark ++ message /\
  prop p results_section display = lit "block".

(** No example id occurs twice, and none is ahead of the counter. *)
Definition ids_in_order (p : Page) : Prop :=
  NoDup (map exampleId (exampleItems p)) /\
  Forall (fun id => id <= exampleCount p) (map exampleId (exampleItems p)).

(** The form passes the validation of [generatePipeline]: the description
    is non-empty after trimming, and one example has both of its fields
    non-empty after trimming. *)
Definition valid_form (p : Page) : Prop :=
  trim (prop p task_description value) <> [] /\
  exists e, In e (exampleItems p) /\
            trim (inputValue e) <> [] /\ trim (outputValue e) <> [].

(** The request [generatePipeline] sends for the form as it stands. *)
Definition generate_request (p : Page) : Request :=
  {| url := lit "/api/generate-pipeline"; post := true;
     body := GenerateBody (collectFormData p) |}.

(** The request [testPipeline] sends for the page as it stands. *)
Definition test_request (p : Page) : Request :=
  {| url := lit "/api/test-pipeline"; post := true;
     body := TestBody (sessionId p) (trim (prop p test_input value)) |}.



(** The three faces of the health indicator. *)
Definition health_positive (p : Page) : Prop :=
  prop p health_status textContent = check_mark ++ lit "Ollama is running" /\
  prop p health_status className = lit "health-status healthy".

Definition health_start_runtime (p : Page) : Prop :=
  prop p health_status textContent
  = warning_mark ++ lit "Ollama is not running - Run: ollama serve" /\
  prop p health_status className = lit "health-status unhealthy".

Definition health_cannot_connect (p : Page) : Prop :=
  prop p health_status textContent
  = error_mark ++ lit "Cannot connect to backend" /\
  prop p health_status className = lit "health-status unhealthy".

(** The body says that the backend is healthy and the runtime running. *)
Definition healthy_and_running (data : jsval) : Prop :=
  field data "status" = VStr (lit "healthy") /\
  field data "ollama" = VStr (lit "running").

(** At most one request of kind [k] is in flight, and while one is, the
    button that starts it is disabled. *)
Definition one_in_flight (k : Awaiting) (button : element) (p : Page) : Prop :=
  count_awaiting k p = 0 \/
  (count_awaiting k p = 1 /\ disabled p button = true).

Definition guarded (p : Page) : Prop :=
  one_in_flight GenerateFetch generate_btn p /\
  one_in_flight TestFetch test_btn p.

(** No session is stored and no test request was ever sent. *)
Definition no_session (p : Page) : Prop :=
  sessionId p = VNull /\
  forall r, In r (sent p) -> url r <> lit "/api/test-pipeline".

(** A generation response with a 2xx status arrives. *)
Definition generation_succeeds (ev : Event) : Prop :=
  exists b, ev = FetchSettled GenerateFetch (Response true b).

(** The parts of the page that only the example list, the two globals and
    the queues make up: a handler that writes to elements alone keeps
    them. *)
Definition same_backstage (p q : Page) : Prop :=
  exampleCount q = exampleCount p /\ exampleItems q = exampleItems p /\
  sent q = sent p /\ awaiting q = awaiting p.

(** A run of removals, in the order given. *)
Definition removals (ids : list nat) (p : Page) : Page :=
  fold_left (fun q id => removeExample id q) ids p.

(** What the user put into an entry, with the id it is known by. *)
Definition data (e : ExampleItem) : nat * jsstring * jsstring :=
  (exampleId e, inputValue e, outputValue e).

(** The pairs a form with distinct ids submits: the trimmed fields of the
    entries that have both non-empty, in document order. *)
Definition filled_examples (items : list ExampleItem)
  : list (jsstring * jsstring) :=
  flat_map
    (fun e =>
       if negb (is_empty (trim (inputValue e)))
          && negb (is_empty (trim (outputValue e)))
       then [(trim (inputValue e), trim (outputValue e))]
       else [])
    items.

(** The entry [addExample] creates under the id [k]. *)
Definition new_item (k : nat) : ExampleItem :=
  {| exampleId := k; exampleNumber := label k;
     inputValue := []; outputValue := [] |}.

(** The names of the entries of [filesGenerated] up to the first that
    cannot be converted to a string, and that entry when there is one. *)
Fixpoint converted_names (items : list jsval) : list jsstring * option jsval :=
  match items with
  | [] => ([], None)
  | x :: rest =>
      match toString x with
      | Some name =>
          (name :: fst (converted_names rest), snd (converted_names rest))
      | None => ([], Some x)
      end
  end.

(** The three fields [displayResults] writes as text can be converted. *)
Definition texts_convert (result : jsval) : Prop :=
  toString (field result "optimizationMessage") <> None /\
  domString (field result "pipelineCode") <> None /\
  domString (field result "syntheticPrompt") <> None.

(** [filesGenerated] is the list [files], whose entries convert to
    [names]. *)
Definition files_named (result : jsval) (files : list jsval)
  (names : list jsstring) : Prop :=
  field result "filesGenerated" = VArr files /\
  map toString files = map Some names.

(** ** Tabs

    [switchTab] only touches the tab buttons and the tab panes, which no
    other function reads or writes; they are kept apart from [Page].  A
    button is known by its [data-tab], a pane by its [id]; with each goes
    whether its class list holds [active].  The markup is taken to put
    [data-tab] on the [.tab-btn] elements only and the [...-tab] ids on
    the [.tab-pane] elements only. *)

Record Tabs : Type := {
  tab_btns : list (jsstring * bool);
  tab_panes : list (jsstring * bool)
}.

(** [forEach(x => x.classList.remove('active'))]. *)
Definition remove_active (l : list (jsstring * bool)) : list (jsstring * bool) :=
  map (fun x => (fst x, false)) l.

(** [classList.add('active')] on the first element known by [name]; [None]
    when the lookup gives [null]. *)
Fixpoint add_active (name : jsstring) (l : list (jsstring * bool))
  : option (list (jsstring * bool)) :=
  match l with
  | [] => None
  | x :: rest =>
      if jsstring_eqb (fst x) name then Some ((fst x, true) :: rest)
      else option_map (cons x) (add_active name rest)
  end.

(** The error of [switchTab] is thrown out of a click listener, where
    nothing reads it; only the lookup that gave [null] is recorded. *)
Definition switchTab (tabName : jsstring) (t : Tabs) : Tabs * completion unit :=
  let t := {| tab_btns := remove_active (tab_btns t); tab_panes := tab_panes t |} in
  match add_active tabName (tab_btns t) with
  | None => (t, Throw (typeError VNull (lit "classList")))
  | Some btns =>
      let t := {| tab_btns := btns; tab_panes := tab_panes t |} in
      let t := {| tab_btns := tab_btns t; tab_panes := remove_active (tab_panes t) |} in
      match add_active (tabName ++ lit "-tab") (tab_panes t) with
      | None => (t, Throw (typeError VNull (lit "classList")))
      | Some panes => ({| tab_btns := tab_btns t; tab_panes := panes |}, Normal tt)
      end
  end.

(** The names of the elements that are active. *)
Definition active (l : list (jsstring * bool)) : list jsstring :=
  map fst (filter snd l).

(** ** More vocabulary *)

(** The session a run of events leaves: that of the last generation
    response that was [ok] with a body to read it from. *)
Definition session_after (ev : Event) (session : jsval) : jsval :=
  match ev with
  | FetchSettled GenerateFetch (Response true (Json result)) =>
      if nullish result then session else field result "sessionId"
  | _ => session
  end.

Definition last_session (evs : list Event) (session : jsval) : jsval :=
  fold_left (fun s ev => session_after ev s) evs session.

(** A string that neither begins nor ends with white space. *)
Definition no_outer_whitespace (s : jsstring) : Prop :=
  (forall c rest, s = c :: rest -> is_whitespace c = false) /\
  (forall c front, s = front ++ [c] -> is_whitespace c = false).

(** What the backend may rely on in a request. *)
Definition wellformed_request (r : Request) : Prop :=
  match body r with
  | NoBody => url r = lit "/api/health" /\ post r = false
  | GenerateBody data =>
      url r = lit "/api/generate-pipeline" /\ post r = true /\
      taskDescription data <> [] /\ ollamaModel data <> [] /\
      examples data <> [] /\
      Forall (fun io => fst io <> [] /\ snd io <> []) (examples data)
  | TestBody session testInput =>
      url r = lit "/api/test-pipeline" /\ post r = true /\
      truthy session = true /\ testInput <> []
  end.

(** [q] differs from [p] in no property of an element outside [l]. *)
Definition writes_only (l : list (element * attr)) (p q : Page) : Prop :=
  forall e a, ~ In (e, a) l -> prop q e a = prop p e a.

(** The properties an error message occupies. *)
Definition error_area : list (element * attr) :=
  [(results_section, display); (status_message, className);
   (status_message, textContent)].

(** The outcome of a generation fetch that renders no result. *)
Definition generation_fails (o : Outcome) : Prop :=
  match o with
  | Response true (Json result) => nullish result = true
  | _ => True
  end.

(** Every property a handler may write, put together: none is the [value]
    of a field. *)
Definition shown_area : list (element * attr) :=
  error_area ++
  [(loading, display); (test_section, display); (pipeline_code, textContent);
   (synthetic_prompt, textContent); (test_output, display);
   (test_result, textContent); (health_status, textContent);
   (health_status, className)].

(** The test of [validateFormData], without the message. *)
Definition validates (data : FormData) : bool :=
  negb (is_empty (taskDescription data))
  && negb (List.length (examples data) =? 0).

(** The user types into the field [e]. *)
Definition types_into (e : element) (ev : Event) : Prop :=
  exists text, ev = Input e text.

(** The events that touch the list of examples. *)
Definition edits_examples (ev : Event) : Prop :=
  match ev with
  | DOMContentLoaded | Click_add_example | Click_remove _
  | Input_example _ _ _ => True
  | _ => False
  end.

(** The outcome of a test fetch that displays no output. *)
Definition test_fails (o : Outcome) : Prop :=
  match o with
  | Response true (Json _) => False
  | _ => True
  end.

(** The two timers that two confirmations of a copy, one after the other,
    set on the page [p]. *)
Definition first_restore (p : Page) : Timer :=
  RestoreStatus (prop p status_message textContent)
    (prop p status_message className).


(** ** More sample data *)

(** The events that fill in the sample form and submit it. *)
Definition submit_summarize : list Event :=
  [DOMContentLoaded;
   Input task_description (lit "Summarize text");
   Input_example 0 false (lit "Hello world");
   Input_example 0 true (lit "Greeting");
   Click_generate].

(** The sample form while its request is in flight. *)
Definition generating : Page := generatePipeline summarize_form.

(** The sample form once the response [o] to its request has arrived, the
    health check still pending. *)
Definition generated (o : Outcome) : Page :=
  generatePipeline_settled o (set_awaiting [HealthFetch] generating).

Definition test_result_with_note : list (jsstring * jsval) :=
  [(lit "output", VStr (lit "A greeting")); (lit "note", VStr (lit "cached"))].

Definition result_without_files : list (jsstring * jsval) :=
  [(lit "sessionId", VStr (lit "session-2"));
   (lit "optimizationSuccess", VBool true)].

Definition two_tabs : Tabs :=
  {| tab_btns := [(lit "code", true); (lit "prompt", false)];
     tab_panes := [(lit "code-tab", true); (lit "prompt-tab", false)] |}.






(** The sample form after a generation that succeeded, with a test input
    typed in; the same page while its test request is in flight, and the
    events that lead there. *)
Definition ready_to_test : Page :=
  set_prop test_input value (lit "Hi")
    (generated (Response true (Json (VObj generation_result)))).

Definition testing : Page := testPipeline ready_to_test.

Definition submit_test : list Event :=
  submit_summarize
  ++ [FetchSettled GenerateFetch (Response true (Json (VObj generation_result)));
      Input test_input (lit "Hi");
      Click_test].

(** The sample form after a generation that succeeded, generating
    again. *)
Definition generating_again : Page :=
  generatePipeline (generated (Response true (Json (VObj generation_result)))).
(** * Properties *)

(** ** Proof steps shared below *)

Arguments collectFormData : simpl never.
Arguments lit : simpl never.

Ltac js_unfold :=
  unfold try_catch_finally, try_catch, check_ok, forEach, get, converted,
    bind, ret, throw, exec, awaited_response, awaited_json, or_else;
  simpl.

(** The loop over [filesGenerated] appends one link per entry, in order,
    up to the first entry that cannot be converted, where it throws. *)
Lemma each_links (items : list jsval) (p : Page) :
  each items
    (fun filename =>
       bind (converted filename (toString filename))
         (fun name => exec (appendChild_link (download_link name)))) p
  = (set_downloadLinks
       (downloadLinks p ++ map download_link (fst (converted_names items))) p,
     match snd (converted_names items) with
     | None => Normal tt
     | Some x => Throw (typeError x (lit "toString"))
     end).
Proof.
  revert p. induction items as [|x items IH]; intro p; simpl.
  - unfold ret. rewrite app_nil_r. now destruct p.
  - unfold bind at 1 2, converted, exec.
    destruct (toString x) as [name|]; simpl.
    + unfold ret. simpl. rewrite IH. unfold appendChild_link. simpl.
      now rewrite <- app_assoc.
    + unfold throw. rewrite app_nil_r. now destruct p.
Qed.

Ltac other_button :=
  let e := fresh "e" in
  let He := fresh "He" in
  intros e He; destruct e; try reflexivity; now contradiction He.

(** Split on whatever a settled handler still has to decide: the
    truthiness of a field, whether a field converts, whether
    [filesGenerated] is a list, and where its loop stops. *)
Ltac settle_step :=
  first
    [ match goal with
      | |- context [truthy ?x] => destruct (truthy x)
      end
    | match goal with
      | |- context [toString ?x] => destruct (toString x)
      end
    | match goal with
      | |- context [domString ?x] => destruct (domString x)
      end
    | match goal with
      | |- context [lookup (lit "filesGenerated") ?props] =>
          destruct (lookup (lit "filesGenerated") props)
      end
    | rewrite each_links
    | match goal with
      | |- context [snd (converted_names ?l)] =>
          destruct (snd (converted_names l))
      end ];
  simpl.

(** Every way a settled generation can go. *)
Ltac generate_cases o :=
  unfold generatePipeline_settled, displayResults;
  let v := fresh "v" in
  let ok := fresh "ok" in
  destruct o as [? | ok [? | v]]; js_unfold;
  [ | | destruct v, ok; simpl; repeat settle_step ].

(** Every way a settled test can go. *)
Ltac test_cases o :=
  unfold testPipeline_settled;
  let v := fresh "v" in
  let ok := fresh "ok" in
  destruct o as [? | ok [? | v]]; js_unfold;
  [ | | destruct v, ok; simpl; repeat settle_step ].

(** ** Trimming *)

Lemma trimStart_empty (s : jsstring) :
  is_empty (trimStart s) = forallb is_whitespace s.
Proof.
  induction s as [|c s IH]; simpl; [reflexivity|].
  destruct (is_whitespace c); [exact IH | reflexivity].
Qed.

(** What [trimStart] leaves begins with a character that is kept. *)
Lemma trimStart_head (s : jsstring) :
  forallb is_whitespace (trimStart s) = is_empty (trimStart s).
Proof.
  induction s as [|c s IH]; simpl; [reflexivity|].
  destruct (is_whitespace c) eqn:E; [exact IH | simpl; now rewrite E].
Qed.

Lemma is_empty_rev (s : jsstring) : is_empty (rev s) = is_empty s.
Proof.
  destruct s as [|c s]; simpl; [reflexivity|].
  destruct (rev s); reflexivity.
Qed.

Lemma forallb_rev (f : N -> bool) (s : jsstring) :
  forallb f (rev s) = forallb f s.
Proof.
  induction s as [|c s IH]; simpl; [reflexivity|].
  rewrite forallb_app, IH; simpl.
  rewrite andb_true_r; apply andb_comm.
Qed.

Lemma trim_empty (s : jsstring) :
  is_empty (trim s) = forallb is_whitespace s.
Proof.
  unfold trim, trimEnd.
  rewrite is_empty_rev, trimStart_empty, forallb_rev, trimStart_head.
  apply trimStart_empty.
Qed.

Lemma is_empty_true (s : jsstring) : is_empty s = true <-> s = [].
Proof. destruct s; simpl; split; intro H; try reflexivity; discriminate. Qed.

Lemma is_empty_false (s : jsstring) : is_empty s = false <-> s <> [].
Proof.
  destruct s; simpl; split; intro H; try reflexivity; try discriminate.
  now contradiction H.
Qed.

(** A string is non-empty after trimming exactly when it holds a character
    that is not white space. *)
Lemma trim_nonempty_iff (s : jsstring) :
  trim s <> [] <-> exists c, In c s /\ is_whitespace c = false.
Proof.
  rewrite <- is_empty_false, trim_empty. split.
  - intro H. induction s as [|c s IH]; simpl in H; [discriminate|].
    destruct (is_whitespace c) eqn:E.
    + destruct (IH H) as (c' & Hin & Hc'). exists c'; simpl; auto.
    + exists c; simpl; auto.
  - intros (c & Hin & Hc).
    destruct (forallb is_whitespace s) eqn:E; [|reflexivity].
    rewrite forallb_forall in E. rewrite (E c Hin) in Hc. discriminate.
Qed.

(** ** The list of examples *)

Lemma renumber_length (index : nat) (items : list ExampleItem) :
  List.length (renumber index items) = List.length items.
Proof.
  revert index; induction items as [|e items IH]; intro index; simpl;
    [reflexivity | now rewrite IH].
Qed.

Lemma renumber_nth (items : list ExampleItem) :
  forall index i,
    nth_error (renumber index items) i =
    option_map (set_exampleNumber (label (index + i + 1))) (nth_error items i).
Proof.
  induction items as [|e items IH]; intros index [|i]; simpl; try reflexivity.
  - now rewrite Nat.add_0_r.
  - rewrite IH. now replace (S index + i + 1) with (index + S i + 1) by lia.
Qed.

Lemma renumber_exampleId (index : nat) (items : list ExampleItem) :
  map exampleId (renumber index items) = map exampleId items.
Proof.
  revert index; induction items as [|e items IH]; intro index; simpl;
    [reflexivity | now rewrite IH].
Qed.

Lemma renumber_inputValue (index : nat) (items : list ExampleItem) :
  map inputValue (renumber index items) = map inputValue items.
Proof.
  revert index; induction items as [|e items IH]; intro index; simpl;
    [reflexivity | now rewrite IH].
Qed.

Lemma renumber_outputValue (index : nat) (items : list ExampleItem) :
  map outputValue (renumber index items) = map outputValue items.
Proof.
  revert index; induction items as [|e items IH]; intro index; simpl;
    [reflexivity | now rewrite IH].
Qed.

(** The pass that closes [removeExample] leaves every entry labelled by
    its position. *)
Lemma renumber_labelled (items : list ExampleItem) :
  labelled_by_position (renumber 0 items).
Proof.
  intros i e H. rewrite renumber_nth in H.
  destruct (nth_error items i); simpl in H; [|discriminate].
  now injection H as <-.
Qed.

Lemma removeExample_labelled (id : nat) (p : Page) :
  labelled_by_position (exampleItems (removeExample id p)).
Proof.
  unfold removeExample.
  destruct (querySelector_exampleId id (exampleItems p)); simpl;
    apply renumber_labelled.
Qed.

Lemma querySelector_absent (id : nat) (items : list ExampleItem) :
  (forall e, In e items -> exampleId e <> id) ->
  querySelector_exampleId id items = None.
Proof.
  intro H. unfold querySelector_exampleId.
  destruct (find _ items) as [e|] eqn:E; [|reflexivity].
  apply find_some in E. destruct E as [Hin Heq].
  apply Nat.eqb_eq in Heq. now destruct (H e Hin).
Qed.

(** C10: [removeExample] with an id that no entry carries deletes nothing,
    keeps the id, the input and the output of every entry, in order, and
    its relabelling pass leaves each entry labelled by its 1-based
    position; the counter and the session are not touched. *)
Theorem C10_remove_absent_id (id : nat) (p : Page) :
  (forall e, In e (exampleItems p) -> exampleId e <> id) ->
  let p' := removeExample id p in
  List.length (exampleItems p') = List.length (exampleItems p) /\
  map exampleId (exampleItems p') = map exampleId (exampleItems p) /\
  map inputValue (exampleItems p') = map inputValue (exampleItems p) /\
  map outputValue (exampleItems p') = map outputValue (exampleItems p) /\
  labelled_by_position (exampleItems p') /\
  exampleCount p' = exampleCount p /\ sessionId p' = sessionId p.
Proof.
  intros Habsent p'. subst p'. unfold removeExample.
  rewrite (querySelector_absent _ _ Habsent). simpl.
  repeat split.
  - apply renumber_length.
  - apply renumber_exampleId.
  - apply renumber_inputValue.
  - apply renumber_outputValue.
  - apply renumber_labelled.
Qed.

(** C1: on a page that starts without examples, adding two entries,
    removing the first and adding a third leaves the entries with ids 2
    and 3 labelled "Example 1" and "Example 3": [addExample] labels the new
    entry with its identifier, not with its position 2, and the labels are
    not contiguous. *)
Theorem C1_add_labels_by_identifier (p : Page) :
  exampleCount p = 0 -> exampleItems p = [] ->
  let p' := addExample (removeExample 1 (addExample (addExample p))) in
  map exampleId (exampleItems p') = [2; 3] /\
  map exampleNumber (exampleItems p') = [label 1; label 3] /\
  label 3 <> label 2 /\
  ~ labelled_by_position (exampleItems p').
Proof.
  intros Hcount Hitems p'. subst p'.
  unfold addExample, removeExample, querySelector_exampleId. simpl.
  rewrite Hcount, Hitems. simpl.
  repeat split; try discriminate.
  intro H. specialize (H 1 _ eq_refl). simpl in H. discriminate.
Qed.

(** ** Validation *)

Lemma snoc_neq {A : Type} (l : list A) (x : A) : l ++ [x] <> l.
Proof.
  intro H. apply (f_equal (@List.length A)) in H.
  rewrite length_app in H. simpl in H. lia.
Qed.

Lemma showError_shows (message : jsstring) (p : Page) :
  shows_error message (showError message p).
Proof. repeat split. Qed.

Lemma getElementById_example_In (id : nat) (self : ExampleItem)
  (items : list ExampleItem) :
  In self items -> In (getElementById_example id self items) items.
Proof.
  intro H. unfold getElementById_example.
  destruct (find _ items) as [e|] eqn:E; [|exact H].
  now apply find_some in E.
Qed.

(** Every pair that is collected is the trimmed content of an entry whose
    two fields are non-empty after trimming. *)
Lemma collected_example (p : Page) (input output : jsstring) :
  In (input, output) (examples (collectFormData p)) ->
  exists e, In e (exampleItems p) /\
            trim (inputValue e) = input /\ trim (outputValue e) = output /\
            input <> [] /\ output <> [].
Proof.
  unfold collectFormData; simpl.
  intro H. apply in_flat_map in H. destruct H as (item & Hitem & H).
  set (e := getElementById_example (exampleId item) item (exampleItems p)) in *.
  destruct (is_empty (trim (inputValue e))) eqn:Ei; simpl in H; [contradiction|].
  destruct (is_empty (trim (outputValue e))) eqn:Eo; simpl in H; [contradiction|].
  destruct H as [H|[]]. injection H as <- <-.
  exists e. repeat split.
  - now apply getElementById_example_In.
  - now apply is_empty_false.
  - now apply is_empty_false.
Qed.

(** With distinct ids the textareas found by id are those of the item at
    hand. *)
Lemma getElementById_example_self (items : list ExampleItem) (self : ExampleItem) :
  NoDup (map exampleId items) -> In self items ->
  getElementById_example (exampleId self) self items = self.
Proof.
  unfold getElementById_example.
  induction items as [|e items IH]; intros Hnd Hin; simpl; [reflexivity|].
  inversion Hnd as [|? ? Hnotin Hnd']; subst.
  destruct (Nat.eqb_spec (exampleId e) (exampleId self)) as [Heq|Hne].
  - destruct Hin as [->|Hin]; [reflexivity|].
    exfalso. apply Hnotin. rewrite Heq. now apply in_map.
  - destruct Hin as [->|Hin]; [now contradiction Hne|]. now apply IH.
Qed.

Lemma generatePipeline_cases (p : Page) :
  (is_empty (trim (prop p task_description value)) = true /\
   generatePipeline p = showError (lit "Please provide a task description") p) \/
  (is_empty (trim (prop p task_description value)) = false /\
   examples (collectFormData p) = [] /\
   generatePipeline p = showError (lit "Please provide at least one example") p) \/
  (is_empty (trim (prop p task_description value)) = false /\
   examples (collectFormData p) <> [] /\
   generatePipeline p =
     fetch (generate_request p) GenerateFetch
       (set_prop results_section display (lit "none")
          (set_prop loading display (lit "block")
             (set_disabled generate_btn true p)))).
Proof.
  unfold generatePipeline, validateFormData.
  change (taskDescription (collectFormData p))
    with (trim (prop p task_description value)).
  destruct (is_empty (trim (prop p task_description value))).
  - left. split; reflexivity.
  - right. destruct (examples (collectFormData p)) eqn:E.
    + left. repeat split; reflexivity.
    + right. repeat split; try reflexivity. discriminate.
Qed.

(** C2: [generatePipeline] sends a request only if the description is
    non-empty after trimming and some example has both its input and its
    output non-empty after trimming; when that fails, one of the two
    validation messages is shown as an error, nothing is sent and nothing
    is left pending. *)
Theorem C2_generate_validates (p : Page) :
  (sent (generatePipeline p) <> sent p -> valid_form p) /\
  (~ valid_form p ->
   sent (generatePipeline p) = sent p /\
   awaiting (generatePipeline p) = awaiting p /\
   exists message,
     (message = lit "Please provide a task description" \/
      message = lit "Please provide at least one example") /\
     generatePipeline p = showError message p /\
     shows_error message (generatePipeline p)).
Proof.
  assert (Hvalid : is_empty (trim (prop p task_description value)) = false ->
                   examples (collectFormData p) <> [] -> valid_form p).
  { intros Ht He. split; [now apply is_empty_false|].
    destruct (examples (collectFormData p)) as [|[input output] rest] eqn:E;
      [now contradiction He|].
    destruct (collected_example p input output) as (e & Hin & Hi & Ho & Hi' & Ho').
    { rewrite E. now left. }
    exists e. subst input output. auto. }
  destruct (generatePipeline_cases p)
    as [(Ht & ->) | [(Ht & He & ->) | (Ht & He & ->)]].
  - split; [intro H; now contradiction H|].
    intros _. repeat split. eexists; repeat split; eauto.
  - split; [intro H; now contradiction H|].
    intros _. repeat split. eexists; repeat split; eauto.
  - split; [intros _; now apply Hvalid|].
    intro Hn. destruct Hn. now apply Hvalid.
Qed.

(** On a page whose example ids are distinct, a form that is valid is
    sent: one POST to the generation endpoint with the collected data,
    while the button is disabled. *)
Lemma generatePipeline_sends (p : Page) :
  NoDup (map exampleId (exampleItems p)) -> valid_form p ->
  sent (generatePipeline p) = sent p ++ [generate_request p] /\
  awaiting (generatePipeline p) = awaiting p ++ [GenerateFetch] /\
  disabled (generatePipeline p) generate_btn = true.
Proof.
  intros Hnd (Ht & e & Hin & Hi & Ho).
  assert (He : examples (collectFormData p) <> []).
  { intro H.
    assert (Hex : In (trim (inputValue e), trim (outputValue e))
                    (examples (collectFormData p))).
    { unfold collectFormData; simpl. apply in_flat_map.
      exists e. split; [exact Hin|].
      rewrite (getElementById_example_self _ _ Hnd Hin).
      apply is_empty_false in Hi, Ho. rewrite Hi, Ho. now left. }
    rewrite H in Hex. exact Hex. }
  destruct (generatePipeline_cases p)
    as [(Ht' & _) | [(_ & He' & _) | (_ & _ & ->)]].
  - apply is_empty_true in Ht'. now contradiction Ht.
  - now contradiction He.
  - repeat split.
Qed.
(** ** Rendering a result *)

Lemma converted_names_all (files : list jsval) :
  forall names,
    map toString files = map Some names ->
    converted_names files = (names, None).
Proof.
  induction files as [|x files IH]; intros [|name names] H; simpl in H;
    try discriminate; [reflexivity|].
  injection H as Hx H. simpl. rewrite Hx, (IH names H). reflexivity.
Qed.




(** ** What each handler leaves alone *)

Lemma showError_backstage (message : jsstring) (p : Page) :
  same_backstage p (showError message p) /\
  sessionId (showError message p) = sessionId p /\
  disabled (showError message p) = disabled p.
Proof. repeat split. Qed.

Lemma showSuccess_backstage (message : jsstring) (p : Page) :
  same_backstage p (showSuccess message p) /\
  sessionId (showSuccess message p) = sessionId p /\
  disabled (showSuccess message p) = disabled p.
Proof. repeat split. Qed.

Lemma fire_backstage (t : Timer) (p : Page) :
  same_backstage p (fire t p) /\
  sessionId (fire t p) = sessionId p /\
  disabled (fire t p) = disabled p.
Proof.
  destruct t; simpl.
  - destruct (includes _ _); repeat split.
  - repeat split.
Qed.

Lemma checkHealth_settled_backstage (o : Outcome) (p : Page) :
  same_backstage p (checkHealth_settled o p) /\
  sessionId (checkHealth_settled o p) = sessionId p /\
  disabled (checkHealth_settled o p) = disabled p.
Proof.
  unfold checkHealth_settled.
  destruct o as [message | ok [message | v]]; js_unfold;
    [repeat split .. |].
  destruct v; simpl; try (repeat split; fail).
  destruct (strict_eq_str _ _); simpl; [|repeat split].
  destruct (strict_eq_str _ _); simpl; repeat split.
Qed.

Lemma generatePipeline_settled_backstage (o : Outcome) (p : Page) :
  same_backstage p (generatePipeline_settled o p) /\
  disabled (generatePipeline_settled o p) generate_btn = false /\
  (forall e, e <> generate_btn ->
     disabled (generatePipeline_settled o p) e = disabled p e).
Proof.
  split; [|split].
  - generate_cases o; repeat split.
  - generate_cases o; reflexivity.
  - generate_cases o; other_button.
Qed.

Lemma testPipeline_settled_backstage (o : Outcome) (p : Page) :
  same_backstage p (testPipeline_settled o p) /\
  sessionId (testPipeline_settled o p) = sessionId p /\
  disabled (testPipeline_settled o p) test_btn = false /\
  (forall e, e <> test_btn ->
     disabled (testPipeline_settled o p) e = disabled p e).
Proof.
  split; [|split; [|split]].
  - test_cases o; repeat split.
  - test_cases o; reflexivity.
  - test_cases o; reflexivity.
  - test_cases o; other_button.
Qed.

Lemma testPipeline_cases (p : Page) :
  (is_empty (trim (prop p test_input value)) = true /\
   testPipeline p = showError (lit "Please provide test input") p) \/
  (is_empty (trim (prop p test_input value)) = false /\
   truthy (sessionId p) = false /\
   testPipeline p = showError (lit "No pipeline session found") p) \/
  (is_empty (trim (prop p test_input value)) = false /\
   truthy (sessionId p) = true /\
   testPipeline p
   = fetch (test_request p) TestFetch (set_disabled test_btn true p)).
Proof.
  unfold testPipeline.
  destruct (is_empty (trim (prop p test_input value))).
  - left. split; reflexivity.
  - right. destruct (truthy (sessionId p)); simpl.
    + right. repeat split.
    + left. repeat split.
Qed.

Lemma removeExample_backstage (id : nat) (p : Page) :
  exampleCount (removeExample id p) = exampleCount p /\
  sent (removeExample id p) = sent p /\
  awaiting (removeExample id p) = awaiting p /\
  sessionId (removeExample id p) = sessionId p /\
  disabled (removeExample id p) = disabled p.
Proof.
  unfold removeExample.
  destruct (querySelector_exampleId id (exampleItems p)); repeat split.
Qed.
(** ** The session identifier *)

Lemma generatePipeline_sessionId (p : Page) :
  sessionId (generatePipeline p) = sessionId p.
Proof.
  destruct (generatePipeline_cases p)
    as [(_ & ->) | [(_ & _ & ->) | (_ & _ & ->)]]; reflexivity.
Qed.

Lemma generatePipeline_settled_sessionId (o : Outcome) (p : Page) :
  sessionId (generatePipeline_settled o p) =
  match o with
  | Response true (Json v) => if nullish v then sessionId p else field v "sessionId"
  | _ => sessionId p
  end.
Proof.
  generate_cases o; try reflexivity.
  match goal with |- context [if ?b then _ else _] => now destruct b end.
Qed.

(** C4, as amended: the session identifier is replaced, whatever it was,
    by the [sessionId] of the body of every generation response that is
    [ok] and whose body is a JSON value other than [null]; it is left as
    it was by a validation failure, by a fetch that is rejected, by every
    response that is not [ok], and by a response, [ok] or not, whose body
    cannot be read or is [null]. *)
Theorem C4_session_overwritten_on_success_only (p : Page) :
  (forall result,
     nullish result = false ->
     sessionId (generatePipeline_settled (Response true (Json result)) p)
     = field result "sessionId") /\
  sessionId (generatePipeline p) = sessionId p /\
  (forall message,
     sessionId (generatePipeline_settled (Rejected message) p) = sessionId p) /\
  (forall ok message,
     sessionId (generatePipeline_settled (Response ok (Unreadable message)) p)
     = sessionId p) /\
  (forall b,
     sessionId (generatePipeline_settled (Response false b) p) = sessionId p) /\
  (forall ok result,
     nullish result = true ->
     sessionId (generatePipeline_settled (Response ok (Json result)) p)
     = sessionId p).
Proof.
  split; [|split; [|split; [|split; [|split]]]].
  - intros result H. rewrite generatePipeline_settled_sessionId. now rewrite H.
  - apply generatePipeline_sessionId.
  - intro message. now rewrite generatePipeline_settled_sessionId.
  - intros [|] message; now rewrite generatePipeline_settled_sessionId.
  - intro b. now rewrite generatePipeline_settled_sessionId.
  - intros [|] result H; rewrite generatePipeline_settled_sessionId;
      [now rewrite H | reflexivity].
Qed.

(** ** Errors of a generation *)

Lemma truthy_string (s : jsstring) : s <> [] -> truthy (VStr s) = true.
Proof. intro H. simpl. apply is_empty_false in H. now rewrite H. Qed.

(** The message a response that is not [ok] ends with, when its body is a
    JSON value other than [null]. *)
Lemma generatePipeline_settled_not_ok (result : jsval) (p : Page) :
  nullish result = false ->
  generatePipeline_settled (Response false (Json result)) p
  = set_prop loading display (lit "none")
      (set_disabled generate_btn false
         (showError
            (match
               toString (or_else (field result "error")
                           (VStr (lit "Failed to generate pipeline")))
             with
             | Some message => message
             | None =>
                 typeError
                   (or_else (field result "error")
                      (VStr (lit "Failed to generate pipeline")))
                   (lit "toString")
             end) p)).
Proof.
  intro H. unfold generatePipeline_settled. js_unfold.
  destruct result; try discriminate; simpl; try reflexivity.
  destruct (truthy (lookup (lit "error") props)); simpl; [|reflexivity].
  destruct (toString (lookup (lit "error") props)); reflexivity.
Qed.

(** A response that is not [ok] ends as an error, whatever its body. *)
Lemma generatePipeline_settled_not_ok_error (b : Body) (p : Page) :
  let q := generatePipeline_settled (Response false b) p in
  (exists message, shows_error message q) /\
  sessionId q = sessionId p /\ downloadLinks q = downloadLinks p /\
  disabled q generate_btn = false.
Proof.
  destruct b as [message | result]; cbv zeta.
  - split; [exists message|]; repeat split.
  - destruct (nullish result) eqn:Hn.
    + split; [exists (typeError result (lit "error"))|];
        destruct result; try discriminate; repeat split.
    + rewrite (generatePipeline_settled_not_ok result p Hn).
      split; [|repeat split].
      eexists. split; [reflexivity|]. split; reflexivity.
Qed.

(** C6, as amended: every response that is not [ok] is treated as an
    error: an error message is shown, the session and the download links
    are kept and the button is enabled again.  When the body is a JSON
    value other than [null], what is shown after the error marker is the
    [error] field of the body when that field is there, truthy and
    converts to a string (a string that is not empty shows as it is), and
    "Failed to generate pipeline" when the field is missing or falsy.
    When the body cannot be read, is [null], or holds an [error] that
    cannot be converted, it is the message of the error raised on the
    way. *)
Theorem C6_error_field_or_generic (p : Page) :
  (forall b,
     let q := generatePipeline_settled (Response false b) p in
     (exists message, shows_error message q) /\
     sessionId q = sessionId p /\ downloadLinks q = downloadLinks p /\
     disabled q generate_btn = false) /\
  (forall result s,
     field result "error" = VStr s -> s <> [] ->
     shows_error s (generatePipeline_settled (Response false (Json result)) p)) /\
  (forall result s,
     nullish result = false ->
     truthy (field result "error") = true ->
     toString (field result "error") = Some s ->
     shows_error s (generatePipeline_settled (Response false (Json result)) p)) /\
  (forall result,
     nullish result = false ->
     truthy (field result "error") = false ->
     shows_error (lit "Failed to generate pipeline")
       (generatePipeline_settled (Response false (Json result)) p)) /\
  (forall message,
     shows_error message
       (generatePipeline_settled (Response false (Unreadable message)) p)) /\
  (forall result,
     nullish result = true ->
     shows_error (typeError result (lit "error"))
       (generatePipeline_settled (Response false (Json result)) p)) /\
  (forall result,
     nullish result = false ->
     truthy (field result "error") = true ->
     toString (field result "error") = None ->
     shows_error (typeError (field result "error") (lit "toString"))
       (generatePipeline_settled (Response false (Json result)) p)).
Proof.
  assert (Htruthy : forall result s,
             nullish result = false ->
             truthy (field result "error") = true ->
             toString (field result "error") = Some s ->
             shows_error s
               (generatePipeline_settled (Response false (Json result)) p)).
  { intros result s Hn Ht Hs.
    rewrite (generatePipeline_settled_not_ok result p Hn).
    unfold or_else. rewrite Ht, Hs. repeat split. }
  split; [intro b; apply (generatePipeline_settled_not_ok_error b p)|].
  split; [|split; [exact Htruthy|split; [|split; [|split]]]].
  - intros result s Hs Hne. apply Htruthy.
    + destruct result; try discriminate. reflexivity.
    + rewrite Hs. now apply truthy_string.
    + now rewrite Hs.
  - intros result Hn Ht.
    rewrite (generatePipeline_settled_not_ok result p Hn).
    unfold or_else. rewrite Ht. repeat split.
  - intro message. repeat split.
  - intros result Hn. destruct result; try discriminate; repeat split.
  - intros result Hn Ht Hs.
    rewrite (generatePipeline_settled_not_ok result p Hn).
    unfold or_else. rewrite Ht, Hs. repeat split.
Qed.

(** ** Health check *)

Lemma jsstring_eqb_eq (a b : jsstring) : jsstring_eqb a b = true <-> a = b.
Proof.
  unfold jsstring_eqb. destruct (list_eq_dec N.eq_dec a b); split;
    intro H; try reflexivity; try assumption; try discriminate.
  now contradiction n.
Qed.

Lemma strict_eq_str_true (v : jsval) (text : jsstring) :
  strict_eq_str v text = true <-> v = VStr text.
Proof.
  destruct v; simpl; split; intro H; try discriminate.
  - apply jsstring_eqb_eq in H. now subst.
  - injection H as ->. now apply jsstring_eqb_eq.
Qed.

Lemma healthy_and_running_dec (data : jsval) :
  strict_eq_str (field data "status") (lit "healthy")
  && strict_eq_str (field data "ollama") (lit "running") = true
  <-> healthy_and_running data.
Proof.
  unfold healthy_and_running.
  rewrite andb_true_iff, !strict_eq_str_true. reflexivity.
Qed.

Lemma checkHealth_settled_inspected (ok : bool) (data : jsval) (p : Page) :
  nullish data = false ->
  let q := checkHealth_settled (Response ok (Json data)) p in
  if strict_eq_str (field data "status") (lit "healthy")
     && strict_eq_str (field data "ollama") (lit "running")
  then health_positive q
  else health_start_runtime q.
Proof.
  intro H. unfold checkHealth_settled. js_unfold.
  destruct data; try discriminate; simpl; try (split; reflexivity).
  destruct (strict_eq_str (lookup (lit "status") props) (lit "healthy")); simpl;
    [destruct (strict_eq_str (lookup (lit "ollama") props) (lit "running")); simpl|];
    split; reflexivity.
Qed.

Lemma unhealthy_class_differs :
  lit "health-status unhealthy" <> lit "health-status healthy".
Proof. unfold lit; simpl. discriminate. Qed.

(** C8, as amended: after the health check the indicator is the positive
    one exactly when the response body gives status "healthy" and runtime
    state "running"; every other body that is a JSON value other than
    [null] gives the negative indicator with the advice to run the
    runtime; a rejected fetch, a body that cannot be read and a body that
    is [null] give the negative indicator with the cannot-connect message,
    which is a different text. *)
Theorem C8_health_indicator (p : Page) :
  (forall ok data,
     nullish data = false -> healthy_and_running data ->
     health_positive (checkHealth_settled (Response ok (Json data)) p)) /\
  (forall ok data,
     nullish data = false -> ~ healthy_and_running data ->
     health_start_runtime (checkHealth_settled (Response ok (Json data)) p)) /\
  (forall message,
     health_cannot_connect (checkHealth_settled (Rejected message) p)) /\
  (forall ok message,
     health_cannot_connect
       (checkHealth_settled (Response ok (Unreadable message)) p)) /\
  (forall ok data,
     nullish data = true ->
     health_cannot_connect (checkHealth_settled (Response ok (Json data)) p)) /\
  (forall o,
     prop (checkHealth_settled o p) health_status className
     = lit "health-status healthy" ->
     exists ok data,
       o = Response ok (Json data) /\ healthy_and_running data) /\
  warning_mark ++ lit "Ollama is not running - Run: ollama serve"
  <> error_mark ++ lit "Cannot connect to backend".
Proof.
  split; [|split; [|split; [|split; [|split; [|split]]]]].
  - intros ok data Hd H. apply healthy_and_running_dec in H.
    generalize (checkHealth_settled_inspected ok data p Hd). simpl. now rewrite H.
  - intros ok data Hd H.
    generalize (checkHealth_settled_inspected ok data p Hd). simpl.
    destruct (_ && _) eqn:E; [|tauto].
    apply healthy_and_running_dec in E. now contradiction H.
  - intro message. split; reflexivity.
  - intros ok message. split; reflexivity.
  - intros ok data Hd. destruct data; try discriminate; split; reflexivity.
  - intros o H. destruct o as [message | ok [message | data]];
      try (now destruct unhealthy_class_differs).
    destruct (nullish data) eqn:Hd.
    { destruct data; try discriminate; now destruct unhealthy_class_differs. }
    exists ok, data. split; [reflexivity|].
    generalize (checkHealth_settled_inspected ok data p Hd). simpl.
    destruct (_ && _) eqn:E.
    + intros _. now apply healthy_and_running_dec.
    + intros [_ Hc]. rewrite Hc in H. now destruct unhealthy_class_differs.
  - unfold lit; simpl. discriminate.
Qed.

(** ** The event loop *)

Lemma run_invariant (I : Page -> Prop) (allowed : Event -> Prop) :
  (forall ev p q, allowed ev -> I p -> step ev p = Some q -> I q) ->
  forall evs p q,
    (forall ev, In ev evs -> allowed ev) ->
    I p -> run evs p = Some q -> I q.
Proof.
  intros Hstep evs. induction evs as [|ev evs IH]; intros p q Hall Hp Hrun.
  - simpl in Hrun. now injection Hrun as <-.
  - simpl in Hrun. destruct (step ev p) as [p'|] eqn:E; [|discriminate].
    apply (IH p' q).
    + intros ev' Hin. apply Hall. now right.
    + apply (Hstep ev p p'); auto. apply Hall. now left.
    + exact Hrun.
Qed.

Lemma Awaiting_eqb_eq (a b : Awaiting) : Awaiting_eqb a b = true <-> a = b.
Proof. destruct a, b; simpl; split; intro H; try reflexivity; discriminate. Qed.

(** Taking an entry off the queue lowers the count of its kind by one and
    no other. *)
Lemma take_count (k : Awaiting) (l rest : list Awaiting) :
  take Awaiting_eqb k l = Some rest ->
  forall k',
    count_occ Awaiting_eq_dec l k'
    = count_occ Awaiting_eq_dec rest k'
      + (if Awaiting_eq_dec k k' then 1 else 0).
Proof.
  revert rest. induction l as [|y l IH]; intros rest H k'; simpl in H.
  - discriminate.
  - destruct (Awaiting_eqb k y) eqn:E.
    + injection H as <-. apply Awaiting_eqb_eq in E. subst y. simpl.
      destruct (Awaiting_eq_dec k k'); lia.
    + destruct (take Awaiting_eqb k l) as [rest'|]; [|discriminate].
      injection H as <-. simpl. rewrite (IH rest' eq_refl k').
      destruct (Awaiting_eq_dec y k'); lia.
Qed.

Lemma count_snoc (k k' : Awaiting) (l : list Awaiting) :
  count_occ Awaiting_eq_dec (l ++ [k']) k
  = count_occ Awaiting_eq_dec l k + (if Awaiting_eq_dec k' k then 1 else 0).
Proof.
  rewrite count_occ_app. simpl. destruct (Awaiting_eq_dec k' k); reflexivity.
Qed.

Lemma one_in_flight_same (k : Awaiting) (button : element) (p q : Page) :
  count_awaiting k q = count_awaiting k p ->
  disabled q button = disabled p button ->
  one_in_flight k button p -> one_in_flight k button q.
Proof. unfold one_in_flight. intros -> ->. tauto. Qed.

Lemma guarded_same (p q : Page) :
  awaiting q = awaiting p -> disabled q = disabled p ->
  guarded p -> guarded q.
Proof.
  intros Ha Hd [Hg Ht].
  split; [apply (one_in_flight_same _ _ p); [| |exact Hg]
         |apply (one_in_flight_same _ _ p); [| |exact Ht]];
    unfold count_awaiting; now rewrite ?Ha, ?Hd.
Qed.

(** Suspending on something that is neither of the two guarded fetches. *)
Lemma guarded_other (k : Awaiting) (p q : Page) :
  k <> GenerateFetch -> k <> TestFetch ->
  awaiting q = awaiting p ++ [k] -> disabled q = disabled p ->
  guarded p -> guarded q.
Proof.
  intros Hg Ht Ha Hd [H1 H2].
  split; [apply (one_in_flight_same _ _ p); [| |exact H1]
         |apply (one_in_flight_same _ _ p); [| |exact H2]];
    unfold count_awaiting; rewrite ?Hd, ?Ha, ?count_snoc; auto;
    destruct (Awaiting_eq_dec k _); try lia; congruence.
Qed.

Lemma generatePipeline_guarded (p : Page) :
  disabled p generate_btn = false -> guarded p -> guarded (generatePipeline p).
Proof.
  intros Hen [Hg Ht].
  destruct (generatePipeline_cases p)
    as [(_ & ->) | [(_ & _ & ->) | (_ & _ & ->)]];
    try (apply (guarded_same p); [reflexivity | reflexivity | now split]).
  split.
  - right. destruct Hg as [H0 | [_ Hd]]; [|congruence].
    unfold count_awaiting in *. simpl. rewrite count_snoc, H0.
    split; [|reflexivity]. now destruct (Awaiting_eq_dec GenerateFetch GenerateFetch).
  - eapply one_in_flight_same; [| |exact Ht]; [|reflexivity].
    unfold count_awaiting. simpl. rewrite count_snoc.
    destruct (Awaiting_eq_dec GenerateFetch TestFetch); [discriminate|lia].
Qed.

Lemma testPipeline_guarded (p : Page) :
  disabled p test_btn = false -> guarded p -> guarded (testPipeline p).
Proof.
  intros Hen [Hg Ht].
  destruct (testPipeline_cases p)
    as [(_ & ->) | [(_ & _ & ->) | (_ & _ & ->)]];
    try (apply (guarded_same p); [reflexivity | reflexivity | now split]).
  split.
  - eapply one_in_flight_same; [| |exact Hg]; [|reflexivity].
    unfold count_awaiting. simpl. rewrite count_snoc.
    destruct (Awaiting_eq_dec TestFetch GenerateFetch); [discriminate|lia].
  - right. destruct Ht as [H0 | [_ Hd]]; [|congruence].
    unfold count_awaiting in *. simpl. rewrite count_snoc, H0.
    split; [|reflexivity]. now destruct (Awaiting_eq_dec TestFetch TestFetch).
Qed.

Lemma resume_guarded (k : Awaiting) (o : Outcome) (rest : list Awaiting)
  (p : Page) :
  k <> ClipboardWrite ->
  take Awaiting_eqb k (awaiting p) = Some rest ->
  guarded p -> guarded (resume k o (set_awaiting rest p)).
Proof.
  intros Hk Htake [Hg Ht].
  assert (Hcount := take_count k (awaiting p) rest Htake).
  set (p' := set_awaiting rest p).
  unfold one_in_flight, count_awaiting in Hg, Ht.
  rewrite (Hcount GenerateFetch) in Hg. rewrite (Hcount TestFetch) in Ht.
  destruct k; simpl; try (now contradiction Hk).
  - destruct (checkHealth_settled_backstage o p') as ((_ & _ & _ & Ha) & _ & Hd).
    unfold guarded, one_in_flight, count_awaiting. rewrite Ha, Hd. simpl.
    destruct (Awaiting_eq_dec HealthFetch GenerateFetch); [discriminate|].
    destruct (Awaiting_eq_dec HealthFetch TestFetch); [discriminate|].
    rewrite !Nat.add_0_r in *. now split.
  - destruct (generatePipeline_settled_backstage o p')
      as ((_ & _ & _ & Ha) & Hd & Hd').
    unfold guarded, one_in_flight, count_awaiting.
    rewrite Ha, (Hd' test_btn) by discriminate. simpl.
    destruct (Awaiting_eq_dec GenerateFetch GenerateFetch); [|congruence].
    destruct (Awaiting_eq_dec GenerateFetch TestFetch); [discriminate|].
    rewrite !Nat.add_0_r in *. split; [left; lia | exact Ht].
  - destruct (testPipeline_settled_backstage o p')
      as ((_ & _ & _ & Ha) & _ & Hd & Hd').
    unfold guarded, one_in_flight, count_awaiting.
    rewrite Ha, (Hd' generate_btn) by discriminate. simpl.
    destruct (Awaiting_eq_dec TestFetch GenerateFetch); [discriminate|].
    destruct (Awaiting_eq_dec TestFetch TestFetch); [|congruence].
    rewrite !Nat.add_0_r in *. split; [exact Hg | left; lia].
Qed.

(** Handling one event keeps the guard. *)
Lemma step_guarded (ev : Event) (p q : Page) :
  guarded p -> step ev p = Some q -> guarded q.
Proof.
  intros Hp Hstep. destruct ev; simpl in Hstep.
  - injection Hstep as <-.
    apply (guarded_other HealthFetch p); auto; discriminate.
  - injection Hstep as <-. now apply (guarded_same p).
  - injection Hstep as <-.
    destruct (removeExample_backstage id p) as (_ & _ & Ha & _ & Hd).
    now apply (guarded_same p).
  - destruct (disabled p generate_btn) eqn:E; [discriminate|].
    injection Hstep as <-. now apply generatePipeline_guarded.
  - destruct (disabled p test_btn) eqn:E; [discriminate|].
    injection Hstep as <-. now apply testPipeline_guarded.
  - injection Hstep as <-.
    apply (guarded_other ClipboardWrite p); auto; discriminate.
  - injection Hstep as <-. now apply (guarded_same p).
  - injection Hstep as <-. now apply (guarded_same p).
  - destruct k;
      try discriminate;
      (destruct (take Awaiting_eqb _ (awaiting p)) as [rest|] eqn:E;
       [|discriminate]);
      injection Hstep as <-;
      match type of E with
      | take _ ?k _ = _ =>
          apply (resume_guarded k o rest p); [discriminate | exact E | exact Hp]
      end.
  - destruct (take Awaiting_eqb ClipboardWrite (awaiting p)) as [rest|] eqn:E;
      [|discriminate].
    injection Hstep as <-.
    assert (Hcount := take_count _ _ _ E).
    destruct Hp as [Hg Ht]. unfold one_in_flight, count_awaiting in Hg, Ht.
    rewrite (Hcount GenerateFetch) in Hg. rewrite (Hcount TestFetch) in Ht.
    simpl in Hg, Ht. rewrite !Nat.add_0_r in *.
    destruct written; split; assumption.
  - destruct (take Timer_eqb t (timers p)) as [rest|] eqn:E; [|discriminate].
    injection Hstep as <-.
    destruct (fire_backstage t (set_timers rest p)) as ((_ & _ & _ & Ha) & _ & Hd).
    now apply (guarded_same p).
Qed.

Lemma run_guarded (evs : list Event) (p q : Page) :
  guarded p -> run evs p = Some q -> guarded q.
Proof.
  intros Hp Hrun.
  apply (run_invariant guarded (fun _ => True)
           (fun ev p q _ => step_guarded ev p q) evs p q); auto.
Qed.

Lemma nothing_awaited_guarded (p : Page) : awaiting p = [] -> guarded p.
Proof.
  intro H. split; left; unfold count_awaiting; now rewrite H.
Qed.
(** ** No test without a session *)

Lemma no_session_same (p q : Page) :
  sessionId q = sessionId p -> sent q = sent p ->
  no_session p -> no_session q.
Proof. unfold no_session. intros -> ->. tauto. Qed.

Lemma no_session_sent (p q : Page) (r : Request) :
  sessionId q = sessionId p -> sent q = sent p ++ [r] ->
  url r <> lit "/api/test-pipeline" ->
  no_session p -> no_session q.
Proof.
  unfold no_session. intros -> -> Hr [Hs Hsent]. split; [exact Hs|].
  intros r' Hin. apply in_app_or in Hin. destruct Hin as [Hin | [<- | []]]; auto.
Qed.

Lemma testPipeline_no_session (p : Page) :
  sessionId p = VNull ->
  sent (testPipeline p) = sent p /\ sessionId (testPipeline p) = sessionId p.
Proof.
  intro Hs.
  destruct (testPipeline_cases p)
    as [(_ & ->) | [(_ & _ & ->) | (_ & Ht & _)]]; try (split; reflexivity).
  rewrite Hs in Ht. discriminate.
Qed.

Lemma step_no_session (ev : Event) (p q : Page) :
  ~ generation_succeeds ev ->
  no_session p -> step ev p = Some q -> no_session q.
Proof.
  intros Hev Hp Hstep. destruct ev; simpl in Hstep.
  - injection Hstep as <-.
    apply (no_session_sent p _ {| url := lit "/api/health"; post := false;
                                   body := NoBody |}); auto.
    unfold lit; simpl; discriminate.
  - injection Hstep as <-. now apply (no_session_same p).
  - injection Hstep as <-.
    destruct (removeExample_backstage id p) as (_ & Hs & _ & Hi & _).
    now apply (no_session_same p).
  - destruct (disabled p generate_btn); [discriminate|].
    injection Hstep as <-.
    destruct (generatePipeline_cases p)
      as [(_ & ->) | [(_ & _ & ->) | (_ & _ & ->)]];
      try (now apply (no_session_same p)).
    apply (no_session_sent p _ (generate_request p)); auto.
    unfold lit; simpl; discriminate.
  - destruct (disabled p test_btn); [discriminate|].
    injection Hstep as <-.
    destruct (testPipeline_no_session p (proj1 Hp)) as [Hs Hi].
    now apply (no_session_same p).
  - injection Hstep as <-. now apply (no_session_same p).
  - injection Hstep as <-. now apply (no_session_same p).
  - injection Hstep as <-. now apply (no_session_same p).
  - destruct k; try discriminate;
      (destruct (take Awaiting_eqb _ (awaiting p)) as [rest|]; [|discriminate]);
      injection Hstep as <-.
    + destruct (checkHealth_settled_backstage o (set_awaiting rest p))
        as ((_ & _ & Hs & _) & Hi & _).
      now apply (no_session_same p).
    + destruct (generatePipeline_settled_backstage o (set_awaiting rest p))
        as ((_ & _ & Hs & _) & _).
      apply (no_session_same p); [|exact Hs|exact Hp].
      rewrite generatePipeline_settled_sessionId.
      destruct o as [message | [|] b]; try reflexivity.
      destruct Hev. now exists b.
    + destruct (testPipeline_settled_backstage o (set_awaiting rest p))
        as ((_ & _ & Hs & _) & Hi & _).
      now apply (no_session_same p).
  - destruct (take Awaiting_eqb ClipboardWrite (awaiting p)) as [rest|];
      [|discriminate].
    injection Hstep as <-.
    destruct written; now apply (no_session_same p).
  - destruct (take Timer_eqb t (timers p)) as [rest|]; [|discriminate].
    injection Hstep as <-.
    destruct (fire_backstage t (set_timers rest p)) as ((_ & _ & Hs & _) & Hi & _).
    now apply (no_session_same p).
Qed.

(** C5: [testPipeline] sends a request only if the test input is
    non-empty after trimming and a session identifier is stored; when the
    input is empty after trimming or no session is stored, one of the two
    client-side messages is shown as an error and nothing is sent.  A
    stored session comes from a generation that succeeded: on every page
    reached from a fresh load by events among which no generation
    response was a success, no session is stored, no test request was
    ever sent and [testPipeline] sends none. *)
Theorem C5_test_needs_input_and_session (p : Page) :
  (sent (testPipeline p) <> sent p ->
   trim (prop p test_input value) <> [] /\ truthy (sessionId p) = true) /\
  (trim (prop p test_input value) = [] \/ truthy (sessionId p) = false ->
   sent (testPipeline p) = sent p /\
   awaiting (testPipeline p) = awaiting p /\
   exists message,
     (message = lit "Please provide test input" \/
      message = lit "No pipeline session found") /\
     testPipeline p = showError message p /\
     shows_error message (testPipeline p)) /\
  (forall p0 evs,
     pristine p0 -> run evs p0 = Some p ->
     (forall ev, In ev evs -> ~ generation_succeeds ev) ->
     sessionId p = VNull /\
     sent (testPipeline p) = sent p /\
     forall r, In r (sent p) -> url r <> lit "/api/test-pipeline").
Proof.
  split; [|split].
  - destruct (testPipeline_cases p)
      as [(_ & ->) | [(_ & _ & ->) | (Hi & Hs & _)]];
      try (intro H; now contradiction H).
    intros _. split; [now apply is_empty_false | exact Hs].
  - intro H.
    destruct (testPipeline_cases p)
      as [(_ & ->) | [(_ & _ & ->) | (Hi & Hs & _)]].
    + repeat split. eexists; repeat split; eauto.
    + repeat split. eexists; repeat split; eauto.
    + apply is_empty_false in Hi. destruct H as [H|H]; [now contradiction Hi|].
      rewrite Hs in H. discriminate.
  - intros p0 evs (_ & Hs0 & _ & Hsent0 & _) Hrun Hev.
    assert (H : no_session p).
    { apply (run_invariant no_session (fun ev => ~ generation_succeeds ev)
               step_no_session evs p0 p); auto.
      split; [exact Hs0|]. rewrite Hsent0. intros r []. }
    destruct H as [Hs Hsent]. split; [exact Hs|]. split; [|exact Hsent].
    apply (testPipeline_no_session p Hs).
Qed.

(** ** One request at a time *)

Lemma validateFormData_passes (p : Page) :
  snd (validateFormData (collectFormData p) p) = true ->
  generatePipeline p
  = fetch (generate_request p) GenerateFetch
      (set_prop results_section display (lit "none")
         (set_prop loading display (lit "block")
            (set_disabled generate_btn true p))).
Proof.
  intro H.
  destruct (generatePipeline_cases p)
    as [(Ht & _) | [(Ht & He & _) | (_ & _ & ->)]]; [| |reflexivity];
    exfalso; revert H; unfold validateFormData;
    change (taskDescription (collectFormData p))
      with (trim (prop p task_description value));
    rewrite Ht, ?He; discriminate.
Qed.

Lemma testPipeline_passes (p : Page) :
  trim (prop p test_input value) <> [] -> truthy (sessionId p) = true ->
  testPipeline p = fetch (test_request p) TestFetch (set_disabled test_btn true p).
Proof.
  intros Hi Hs.
  destruct (testPipeline_cases p)
    as [(Ht & _) | [(_ & Hf & _) | (_ & _ & ->)]]; [| |reflexivity].
  - apply is_empty_true in Ht. now contradiction Hi.
  - rewrite Hs in Hf. discriminate.
Qed.

(** C9: whenever the form passes [validateFormData], [generatePipeline]
    issues its request from a page on which the generate button has
    already been disabled, and however that fetch ends the button is
    enabled again; whenever the test input is non-empty after trimming and
    a session is stored, the same holds of [testPipeline] and the test
    button.  So on every page reached from one where nothing is pending,
    at most one request of either kind is in flight, and while one is, its
    button is disabled and a click on it starts nothing. *)
Theorem C9_button_guards_request (p : Page) :
  (snd (validateFormData (collectFormData p) p) = true ->
   exists q, generatePipeline p = fetch (generate_request p) GenerateFetch q /\
             disabled q generate_btn = true /\
             sent q = sent p /\ awaiting q = awaiting p) /\
  (forall o, disabled (generatePipeline_settled o p) generate_btn = false) /\
  (trim (prop p test_input value) <> [] -> truthy (sessionId p) = true ->
   exists q, testPipeline p = fetch (test_request p) TestFetch q /\
             disabled q test_btn = true /\
             sent q = sent p /\ awaiting q = awaiting p) /\
  (forall o, disabled (testPipeline_settled o p) test_btn = false) /\
  (forall p0 evs,
     awaiting p0 = [] -> run evs p0 = Some p ->
     count_awaiting GenerateFetch p <= 1 /\
     count_awaiting TestFetch p <= 1 /\
     (count_awaiting GenerateFetch p = 1 ->
      disabled p generate_btn = true /\ step Click_generate p = None) /\
     (count_awaiting TestFetch p = 1 ->
      disabled p test_btn = true /\ step Click_test p = None)).
Proof.
  split; [|split; [|split; [|split]]].
  - intro H. rewrite (validateFormData_passes p H).
    eexists. split; [reflexivity|]. repeat split.
  - intro o. apply generatePipeline_settled_backstage.
  - intros Hi Hs. rewrite (testPipeline_passes p Hi Hs).
    eexists. split; [reflexivity|]. repeat split.
  - intro o. apply testPipeline_settled_backstage.
  - intros p0 evs H0 Hrun.
    destruct (run_guarded evs p0 p (nothing_awaited_guarded p0 H0) Hrun)
      as [[Hg | [Hg Hgd]] [Ht | [Ht Htd]]];
      rewrite ?Hg, ?Ht; (split; [lia|]); (split; [lia|]); split; intro H;
      try discriminate; simpl; rewrite ?Hgd, ?Htd; now split.
Qed.
(** ** Removing an entry that is there *)

Lemma detach_absent (id : nat) (items : list ExampleItem) :
  ~ In id (map exampleId items) -> detach id items = items.
Proof.
  induction items as [|e items IH]; simpl; intro H; [reflexivity|].
  destruct (Nat.eqb_spec (exampleId e) id) as [Heq|Hne].
  - destruct H. now left.
  - rewrite IH; [reflexivity|]. intro Hin. apply H. now right.
Qed.

Lemma detach_length (id : nat) (items : list ExampleItem) :
  In id (map exampleId items) ->
  S (List.length (detach id items)) = List.length items.
Proof.
  induction items as [|e items IH]; simpl; intro H; [contradiction|].
  destruct (Nat.eqb_spec (exampleId e) id) as [Heq|Hne]; [reflexivity|].
  destruct H as [H|H]; [now contradiction Hne|].
  simpl. now rewrite IH.
Qed.

Lemma detach_In (id x : nat) (items : list ExampleItem) :
  In x (map exampleId (detach id items)) -> In x (map exampleId items).
Proof.
  induction items as [|e items IH]; simpl; [tauto|].
  destruct (Nat.eqb_spec (exampleId e) id) as [Heq|Hne]; simpl; tauto.
Qed.

Lemma detach_In_other (id x : nat) (items : list ExampleItem) :
  x <> id -> In x (map exampleId items) ->
  In x (map exampleId (detach id items)).
Proof.
  intro Hx. induction items as [|e items IH]; simpl; [tauto|].
  destruct (Nat.eqb_spec (exampleId e) id) as [Heq|Hne]; simpl.
  - intros [H|H]; [congruence | exact H].
  - tauto.
Qed.

Lemma detach_NoDup (id : nat) (items : list ExampleItem) :
  NoDup (map exampleId items) -> NoDup (map exampleId (detach id items)).
Proof.
  induction items as [|e items IH]; simpl; intro H; [exact H|].
  inversion H as [|? ? Hnotin Hnd]; subst.
  destruct (Nat.eqb_spec (exampleId e) id) as [Heq|Hne]; [exact Hnd|].
  simpl. constructor; [|now apply IH].
  intro Hin. apply Hnotin. now apply detach_In in Hin.
Qed.

Lemma detach_gone (id : nat) (items : list ExampleItem) :
  NoDup (map exampleId items) -> ~ In id (map exampleId (detach id items)).
Proof.
  induction items as [|e items IH]; simpl; intro H; [tauto|].
  inversion H as [|? ? Hnotin Hnd]; subst.
  destruct (Nat.eqb_spec (exampleId e) id) as [Heq|Hne].
  - now rewrite <- Heq.
  - simpl. intros [Hin|Hin]; [now contradiction Hne | now apply IH].
Qed.

Lemma filter_absent (id : nat) (items : list ExampleItem) :
  ~ In id (map exampleId items) ->
  filter (fun d => negb (fst (fst d) =? id)) (map data items) = map data items.
Proof.
  induction items as [|e items IH]; simpl; intro H; [reflexivity|].
  destruct (Nat.eqb_spec (exampleId e) id) as [Heq|Hne]; simpl.
  - destruct H. now left.
  - rewrite IH; [reflexivity|]. tauto.
Qed.

Lemma detach_data (id : nat) (items : list ExampleItem) :
  NoDup (map exampleId items) ->
  map data (detach id items)
  = filter (fun d => negb (fst (fst d) =? id)) (map data items).
Proof.
  induction items as [|e items IH]; simpl; intro H; [reflexivity|].
  inversion H as [|? ? Hnotin Hnd]; subst.
  destruct (Nat.eqb_spec (exampleId e) id) as [Heq|Hne]; simpl.
  - subst id. now rewrite filter_absent.
  - now rewrite IH.
Qed.

Lemma renumber_data (index : nat) (items : list ExampleItem) :
  map data (renumber index items) = map data items.
Proof.
  revert index; induction items as [|e items IH]; intro index; simpl;
    [reflexivity | now rewrite IH].
Qed.

Lemma removeExample_items (id : nat) (p : Page) :
  exampleItems (removeExample id p) = renumber 0 (detach id (exampleItems p)).
Proof.
  unfold removeExample, querySelector_exampleId.
  destruct (find _ (exampleItems p)) as [e|] eqn:E; [reflexivity|].
  simpl. rewrite detach_absent; [reflexivity|].
  intro Hin. apply in_map_iff in Hin. destruct Hin as (e & He & Hin).
  apply (find_none _ _ E) in Hin. apply Nat.eqb_neq in Hin. contradiction.
Qed.

(** [removeExample] with the id of an entry, on a list whose ids are
    distinct, deletes that entry and no other, keeps the ids and the
    contents of the others in their order, and leaves them labelled by
    position. *)
Theorem remove_present_id (id : nat) (p : Page) :
  NoDup (map exampleId (exampleItems p)) ->
  In id (map exampleId (exampleItems p)) ->
  let q := removeExample id p in
  S (List.length (exampleItems q)) = List.length (exampleItems p) /\
  map data (exampleItems q)
  = filter (fun d => negb (fst (fst d) =? id)) (map data (exampleItems p)) /\
  ~ In id (map exampleId (exampleItems q)) /\
  labelled_by_position (exampleItems q).
Proof.
  intros Hnd Hin q. subst q. rewrite removeExample_items.
  split; [|split; [|split]].
  - rewrite renumber_length. now apply detach_length.
  - rewrite renumber_data. now apply detach_data.
  - rewrite renumber_exampleId. now apply detach_gone.
  - apply renumber_labelled.
Qed.

(** ** Adding, then removing *)

Lemma adds_items (n : nat) (p : Page) :
  exampleCount p = 0 -> exampleItems p = [] ->
  exampleItems (Nat.iter n addExample p) = map new_item (seq 1 n) /\
  exampleCount (Nat.iter n addExample p) = n.
Proof.
  intros Hc Hi. induction n as [|n [IHi IHc]]; [now split|].
  rewrite Nat.iter_succ. set (q := Nat.iter n addExample p) in *.
  unfold addExample, set_exampleItems, set_exampleCount.
  cbn [exampleItems exampleCount]. rewrite IHi, IHc. split; [|lia].
  rewrite seq_S, map_app. cbn [map]. now rewrite (Nat.add_comm n 1).
Qed.

Lemma nth_error_seq_Some (len : nat) :
  forall start i k, nth_error (seq start len) i = Some k -> k = start + i.
Proof.
  induction len as [|len IH]; intros start [|i] k H; simpl in H;
    try discriminate.
  - injection H as <-. lia.
  - apply IH in H. lia.
Qed.

Lemma adds_labelled (n : nat) : labelled_by_position (map new_item (seq 1 n)).
Proof.
  intros i e H. rewrite nth_error_map in H.
  destruct (nth_error (seq 1 n) i) as [k|] eqn:E; [|discriminate].
  injection H as <-. apply nth_error_seq_Some in E. subst k. simpl.
  now rewrite Nat.add_comm.
Qed.

Lemma labelled_numbers (items : list ExampleItem) :
  labelled_by_position items ->
  map exampleNumber items = map label (seq 1 (List.length items)).
Proof.
  intro H.
  assert (G : forall k l,
             (forall i e, nth_error l i = Some e ->
                          exampleNumber e = label (k + i + 1)) ->
             map exampleNumber l = map label (seq (k + 1) (List.length l))).
  { intros k l. revert k. induction l as [|e l IH]; intros k Hl; simpl;
      [reflexivity|].
    rewrite (Hl 0 e eq_refl), Nat.add_0_r. f_equal.
    replace (S (k + 1)) with (S k + 1) by lia. apply IH.
    intros i e' Hi. rewrite (Hl (S i) e' Hi). f_equal. lia. }
  apply (G 0 items). exact H.
Qed.

Lemma removals_labelled (ids : list nat) (p : Page) :
  labelled_by_position (exampleItems p) ->
  labelled_by_position (exampleItems (removals ids p)).
Proof.
  revert p. induction ids as [|id ids IH]; intros p H; simpl; [exact H|].
  apply IH. apply removeExample_labelled.
Qed.

Lemma removals_length (ids : list nat) (p : Page) :
  NoDup (map exampleId (exampleItems p)) -> NoDup ids ->
  (forall id, In id ids -> In id (map exampleId (exampleItems p))) ->
  List.length (exampleItems (removals ids p)) + List.length ids
  = List.length (exampleItems p).
Proof.
  revert p. induction ids as [|id ids IH]; intros p Hnd Hids Hin; simpl;
    [lia|].
  inversion Hids as [|? ? Hnotin Hids']; subst.
  rewrite <- (detach_length id (exampleItems p)) by (apply Hin; now left).
  rewrite <- (renumber_length 0 (detach id (exampleItems p))).
  rewrite <- removeExample_items.
  rewrite <- (IH (removeExample id p)); [lia| |exact Hids'|].
  - rewrite removeExample_items, renumber_exampleId. now apply detach_NoDup.
  - intros x Hx. rewrite removeExample_items, renumber_exampleId.
    apply detach_In_other; [congruence | apply Hin; now right].
Qed.

(** From an empty list, [n] additions followed by removals leave the
    entries labelled by position; when the removals name [k] different
    entries among those added, [n - k] entries are left, labelled
    "Example 1" to "Example n-k". *)
Theorem adds_then_removals_contiguous (p : Page) (n : nat) (ids : list nat) :
  exampleCount p = 0 -> exampleItems p = [] ->
  let q := removals ids (Nat.iter n addExample p) in
  labelled_by_position (exampleItems q) /\
  (NoDup ids -> (forall id, In id ids -> 1 <= id <= n) ->
   List.length (exampleItems q) = n - List.length ids /\
   map exampleNumber (exampleItems q)
   = map label (seq 1 (n - List.length ids))).
Proof.
  intros Hc Hi q.
  destruct (adds_items n p Hc Hi) as [Hitems _].
  assert (Hl : labelled_by_position (exampleItems q)).
  { subst q. apply removals_labelled. rewrite Hitems. apply adds_labelled. }
  split; [exact Hl|]. intros Hnd Hrange.
  assert (Hlen : List.length (exampleItems q) = n - List.length ids).
  { subst q.
    assert (H := removals_length ids (Nat.iter n addExample p)).
    rewrite Hitems, map_map in H. simpl in H. rewrite map_id in H.
    rewrite length_map, length_seq in H.
    assert (H' : List.length (exampleItems (removals ids (Nat.iter n addExample p)))
                 + List.length ids = n).
    { apply H; [apply seq_NoDup | exact Hnd |].
      intros id Hid. apply in_seq. specialize (Hrange id Hid). lia. }
    lia. }
  split; [exact Hlen|]. rewrite <- Hlen. now apply labelled_numbers.
Qed.

(** ** Ids stay distinct *)

Lemma type_into_exampleId (index : nat) (output : bool) (text : jsstring)
  (items : list ExampleItem) :
  map exampleId (type_into index output text items) = map exampleId items.
Proof.
  revert index. induction items as [|e items IH]; intros [|index]; simpl;
    try reflexivity. now rewrite IH.
Qed.

Lemma ids_in_order_same (p q : Page) :
  exampleCount q = exampleCount p ->
  map exampleId (exampleItems q) = map exampleId (exampleItems p) ->
  ids_in_order p -> ids_in_order q.
Proof. unfold ids_in_order. intros -> ->. tauto. Qed.

Lemma addExample_ids_in_order (p : Page) :
  ids_in_order p -> ids_in_order (addExample p).
Proof.
  intros [Hnd Hle]. unfold ids_in_order, addExample. simpl.
  rewrite map_app. simpl. split.
  - apply NoDup_app; [exact Hnd | repeat constructor; intros [] |].
    intros x Hx [<-|[]]. rewrite Forall_forall in Hle.
    specialize (Hle _ Hx). lia.
  - apply Forall_app. split.
    + eapply Forall_impl; [|exact Hle]. simpl. intros; lia.
    + repeat constructor.
Qed.

Lemma removeExample_ids_in_order (id : nat) (p : Page) :
  ids_in_order p -> ids_in_order (removeExample id p).
Proof.
  intros [Hnd Hle]. unfold ids_in_order.
  rewrite removeExample_items, renumber_exampleId.
  destruct (removeExample_backstage id p) as (-> & _).
  split; [now apply detach_NoDup|].
  rewrite Forall_forall in *. intros x Hx. apply Hle.
  now apply detach_In in Hx.
Qed.

Lemma step_ids_in_order (ev : Event) (p q : Page) :
  ids_in_order p -> step ev p = Some q -> ids_in_order q.
Proof.
  intros Hp Hstep. destruct ev; simpl in Hstep.
  - injection Hstep as <-. apply addExample_ids_in_order.
    now apply (ids_in_order_same p).
  - injection Hstep as <-. now apply addExample_ids_in_order.
  - injection Hstep as <-. now apply removeExample_ids_in_order.
  - destruct (disabled p generate_btn); [discriminate|].
    injection Hstep as <-.
    destruct (generatePipeline_cases p)
      as [(_ & ->) | [(_ & _ & ->) | (_ & _ & ->)]];
      now apply (ids_in_order_same p).
  - destruct (disabled p test_btn); [discriminate|].
    injection Hstep as <-.
    destruct (testPipeline_cases p)
      as [(_ & ->) | [(_ & _ & ->) | (_ & _ & ->)]];
      now apply (ids_in_order_same p).
  - injection Hstep as <-. now apply (ids_in_order_same p).
  - injection Hstep as <-. now apply (ids_in_order_same p).
  - injection Hstep as <-.
    apply (ids_in_order_same p); [reflexivity | | exact Hp].
    simpl. apply type_into_exampleId.
  - destruct k; try discriminate;
      (destruct (take Awaiting_eqb _ (awaiting p)) as [rest|]; [|discriminate]);
      injection Hstep as <-.
    + destruct (checkHealth_settled_backstage o (set_awaiting rest p))
        as ((Hc & Hi & _) & _).
      apply (ids_in_order_same p); [exact Hc | now rewrite Hi | exact Hp].
    + destruct (generatePipeline_settled_backstage o (set_awaiting rest p))
        as ((Hc & Hi & _) & _).
      apply (ids_in_order_same p); [exact Hc | now rewrite Hi | exact Hp].
    + destruct (testPipeline_settled_backstage o (set_awaiting rest p))
        as ((Hc & Hi & _) & _).
      apply (ids_in_order_same p); [exact Hc | now rewrite Hi | exact Hp].
  - destruct (take Awaiting_eqb ClipboardWrite (awaiting p)) as [rest|];
      [|discriminate].
    injection Hstep as <-. destruct written; now apply (ids_in_order_same p).
  - destruct (take Timer_eqb t (timers p)) as [rest|]; [|discriminate].
    injection Hstep as <-.
    destruct (fire_backstage t (set_timers rest p)) as ((Hc & Hi & _) & _).
    apply (ids_in_order_same p); [exact Hc | now rewrite Hi | exact Hp].
Qed.

Lemma collectFormData_examples (p : Page) :
  NoDup (map exampleId (exampleItems p)) ->
  examples (collectFormData p) = filled_examples (exampleItems p).
Proof.
  intro Hnd. unfold collectFormData, filled_examples; simpl.
  rewrite !flat_map_concat_map. f_equal. apply map_ext_in. intros e He.
  now rewrite (getElementById_example_self _ _ Hnd He).
Qed.

(** On every page reached from a fresh load the example ids are distinct;
    there a form that is valid is sent: exactly one POST to
    [/api/generate-pipeline] goes out, carrying the trimmed description
    and, in document order, the trimmed fields of the examples that have
    both non-empty. *)
Theorem valid_form_is_sent (p0 p : Page) (evs : list Event) :
  pristine p0 -> run evs p0 = Some p -> valid_form p ->
  NoDup (map exampleId (exampleItems p)) /\
  sent (generatePipeline p) = sent p ++ [generate_request p] /\
  url (generate_request p) = lit "/api/generate-pipeline" /\
  taskDescription (collectFormData p) = trim (prop p task_description value) /\
  examples (collectFormData p) = filled_examples (exampleItems p).
Proof.
  intros (Hc & _ & Hi & _) Hrun Hvalid.
  assert (Hids : ids_in_order p).
  { apply (run_invariant ids_in_order (fun _ => True)
             (fun ev p q _ => step_ids_in_order ev p q) evs p0 p); auto.
    unfold ids_in_order. rewrite Hi. simpl. split; constructor. }
  destruct Hids as [Hnd _]. split; [exact Hnd|].
  split; [now apply generatePipeline_sends|].
  split; [reflexivity|]. split; [reflexivity|].
  now apply collectFormData_examples.
Qed.
(** ** What is collected from the form *)

Lemma trimStart_snoc (s : jsstring) (c : N) :
  is_whitespace c = false -> trimStart (s ++ [c]) = trimStart s ++ [c].
Proof.
  intro Hc. induction s as [|d s IH]; simpl.
  - now rewrite Hc.
  - destruct (is_whitespace d); [exact IH | reflexivity].
Qed.

Lemma trimStart_clean (s : jsstring) :
  forall c rest, trimStart s = c :: rest -> is_whitespace c = false.
Proof.
  induction s as [|d s IH]; simpl; intros c rest H; [discriminate|].
  destruct (is_whitespace d) eqn:E; [now apply (IH c rest)|].
  now injection H as <- <-.
Qed.

Lemma trimEnd_clean (s : jsstring) :
  forall c front, trimEnd s = front ++ [c] -> is_whitespace c = false.
Proof.
  unfold trimEnd. intros c front H.
  apply (f_equal (@rev N)) in H. rewrite rev_involutive, rev_app_distr in H.
  simpl in H. now apply trimStart_clean in H.
Qed.

(** Trimming the end keeps a first character that is not white space. *)
Lemma trimEnd_cons (c : N) (s : jsstring) :
  is_whitespace c = false -> trimEnd (c :: s) = c :: trimEnd s.
Proof.
  intro Hc. unfold trimEnd. simpl.
  rewrite (trimStart_snoc _ c Hc), rev_app_distr. reflexivity.
Qed.

Lemma trimStart_split (s : jsstring) :
  exists pre, s = pre ++ trimStart s /\ forallb is_whitespace pre = true.
Proof.
  induction s as [|c s (pre & Hs & Hpre)]; simpl.
  - now exists [].
  - destruct (is_whitespace c) eqn:E.
    + exists (c :: pre). simpl. rewrite E, Hpre. split; [now f_equal|reflexivity].
    + now exists [].
Qed.

Lemma trimEnd_split (s : jsstring) :
  exists post, s = trimEnd s ++ post /\ forallb is_whitespace post = true.
Proof.
  unfold trimEnd. destruct (trimStart_split (rev s)) as (pre & Hs & Hpre).
  exists (rev pre). split.
  - rewrite <- rev_app_distr, <- Hs. now rewrite rev_involutive.
  - now rewrite forallb_rev.
Qed.

Lemma trim_clean (s : jsstring) : no_outer_whitespace (trim s).
Proof.
  split.
  - unfold trim. intros c rest H.
    destruct (trimStart s) as [|d t] eqn:E; [discriminate|].
    assert (Hd := trimStart_clean s d t E).
    rewrite (trimEnd_cons d t Hd) in H. now injection H as <- _.
  - intros c front. apply trimEnd_clean.
Qed.

(** Trimming takes white space off the two ends and nothing else. *)
Lemma trim_split (s : jsstring) :
  exists pre post,
    s = pre ++ trim s ++ post /\
    forallb is_whitespace pre = true /\ forallb is_whitespace post = true.
Proof.
  destruct (trimStart_split s) as (pre & Hs & Hpre).
  destruct (trimEnd_split (trimStart s)) as (post & Ht & Hpost).
  exists pre, post. unfold trim. now rewrite <- Ht.
Qed.

Lemma trimStart_fixed (s : jsstring) :
  (forall c rest, s = c :: rest -> is_whitespace c = false) -> trimStart s = s.
Proof.
  destruct s as [|c s]; simpl; intro H; [reflexivity|].
  now rewrite (H c s eq_refl).
Qed.

Lemma trim_idempotent (s : jsstring) : trim (trim s) = trim s.
Proof.
  destruct (trim_clean s) as [Hstart Hend].
  unfold trim at 1. rewrite (trimStart_fixed _ Hstart).
  unfold trimEnd. rewrite <- (rev_involutive (trim s)) at 2. f_equal.
  apply trimStart_fixed. intros c rest H.
  apply (Hend c (rev rest)).
  rewrite <- (rev_involutive (trim s)), H. reflexivity.
Qed.

Lemma flat_map_at_most_one {A B : Type} (f : A -> list B) (l : list A) :
  (forall x, List.length (f x) <= 1) ->
  List.length (flat_map f l) <= List.length l.
Proof.
  intro H. induction l as [|x l IH]; simpl; [lia|].
  rewrite length_app. specialize (H x). lia.
Qed.

(** What [collectFormData] hands over: the description is the field
    without the white space around it; the two types are the fields as
    they are; the model is never empty: it is "llama3.2" when the field is
    blank, and the trimmed field when it is not; every example has two
    fields that are non-empty and free of white space at both ends, each
    being the trimmed content of one entry; there are no more examples
    than entries. *)
Theorem collected_form_is_normalised (p : Page) :
  let data := collectFormData p in
  (exists pre post,
     prop p task_description value = pre ++ taskDescription data ++ post /\
     forallb is_whitespace pre = true /\ forallb is_whitespace post = true) /\
  no_outer_whitespace (taskDescription data) /\
  inputType data = prop p input_type value /\
  outputType data = prop p output_type value /\
  ollamaModel data <> [] /\
  (forallb is_whitespace (prop p ollama_model value) = true ->
   ollamaModel data = lit "llama3.2") /\
  (forallb is_whitespace (prop p ollama_model value) = false ->
   ollamaModel data = trim (prop p ollama_model value)) /\
  (forall input output,
     In (input, output) (examples data) ->
     input <> [] /\ output <> [] /\
     no_outer_whitespace input /\ no_outer_whitespace output /\
     exists e, In e (exampleItems p) /\
               trim (inputValue e) = input /\ trim (outputValue e) = output) /\
  List.length (examples data) <= List.length (exampleItems p).
Proof.
  intro data. subst data.
  assert (Hmodel : ollamaModel (collectFormData p)
                   = if is_empty (trim (prop p ollama_model value))
                     then lit "llama3.2" else trim (prop p ollama_model value))
    by reflexivity.
  split; [apply trim_split|]. split; [apply trim_clean|].
  split; [reflexivity|]. split; [reflexivity|].
  split; [|split; [|split; [|split]]].
  - rewrite Hmodel. destruct (is_empty _) eqn:E.
    + unfold lit; simpl; discriminate.
    + now apply is_empty_false.
  - intro H. rewrite Hmodel, trim_empty, H. reflexivity.
  - intro H. rewrite Hmodel, trim_empty, H. reflexivity.
  - intros input output Hin.
    destruct (collected_example p input output Hin)
      as (e & He & Hi & Ho & Hni & Hno).
    repeat split; auto; try (rewrite <- Hi; apply trim_clean);
      try (rewrite <- Ho; apply trim_clean).
    exists e. auto.
  - unfold collectFormData; simpl. apply flat_map_at_most_one.
    intro e. destruct (negb _ && negb _); simpl; lia.
Qed.

(** ** Which properties a handler writes *)

Ltac frame :=
  unfold writes_only;
  let e := fresh "e" in
  let a := fresh "a" in
  let H := fresh "H" in
  intros e a H; destruct e, a; try reflexivity;
  exfalso; apply H; simpl; tauto.

Lemma writes_only_more (l l' : list (element * attr)) (p q : Page) :
  incl l l' -> writes_only l p q -> writes_only l' p q.
Proof. intros Hl H e a Hn. apply H. intro Hin. apply Hn. now apply Hl. Qed.

Lemma writes_only_trans (l : list (element * attr)) (p q r : Page) :
  writes_only l p q -> writes_only l q r -> writes_only l p r.
Proof. intros H1 H2 e a Hn. now rewrite (H2 e a Hn), (H1 e a Hn). Qed.

Lemma showError_writes (message : jsstring) (p : Page) :
  writes_only error_area p (showError message p).
Proof. frame. Qed.

Lemma showSuccess_writes (message : jsstring) (p : Page) :
  writes_only [(status_message, className); (status_message, textContent)]
    p (showSuccess message p).
Proof. frame. Qed.

Lemma fire_writes (t : Timer) (p : Page) :
  writes_only error_area p (fire t p).
Proof. destruct t; simpl; [destruct (includes _ _)|]; frame. Qed.

Lemma checkHealth_settled_writes (o : Outcome) (p : Page) :
  writes_only [(health_status, textContent); (health_status, className)]
    p (checkHealth_settled o p).
Proof.
  unfold checkHealth_settled.
  destruct o as [message | ok [message | v]]; js_unfold; [frame | frame |].
  destruct v; simpl; try frame.
  destruct (strict_eq_str _ _); simpl; [|frame].
  destruct (strict_eq_str _ _); simpl; frame.
Qed.

Lemma generatePipeline_writes (p : Page) :
  writes_only (error_area ++ [(loading, display)]) p (generatePipeline p).
Proof.
  destruct (generatePipeline_cases p)
    as [(_ & ->) | [(_ & _ & ->) | (_ & _ & ->)]]; frame.
Qed.

Lemma generatePipeline_settled_writes (o : Outcome) (p : Page) :
  writes_only
    (error_area ++ [(loading, display); (test_section, display);
                    (pipeline_code, textContent);
                    (synthetic_prompt, textContent)])
    p (generatePipeline_settled o p).
Proof. generate_cases o; frame. Qed.

(** A generation that fails writes an error and nothing of a result. *)
Lemma generatePipeline_settled_fails (o : Outcome) (p : Page) :
  generation_fails o ->
  writes_only (error_area ++ [(loading, display)])
    p (generatePipeline_settled o p) /\
  downloadLinks (generatePipeline_settled o p) = downloadLinks p /\
  sessionId (generatePipeline_settled o p) = sessionId p /\
  prop (generatePipeline_settled o p) status_message className
  = lit "message error".
Proof.
  intro Hfails. split; [|split; [|split]];
    generate_cases o; simpl in Hfails; try discriminate;
    try reflexivity; frame.
Qed.

Lemma testPipeline_writes (p : Page) :
  writes_only error_area p (testPipeline p).
Proof.
  destruct (testPipeline_cases p)
    as [(_ & ->) | [(_ & _ & ->) | (_ & _ & ->)]]; frame.
Qed.

Lemma testPipeline_settled_writes (o : Outcome) (p : Page) :
  writes_only
    (error_area ++ [(test_output, display); (test_result, textContent)])
    p (testPipeline_settled o p).
Proof. test_cases o; frame. Qed.

Lemma removeExample_prop (id : nat) (p : Page) :
  prop (removeExample id p) = prop p.
Proof.
  unfold removeExample.
  destruct (querySelector_exampleId id (exampleItems p)); reflexivity.
Qed.

Lemma step_writes (ev : Event) (p q : Page) :
  step ev p = Some q ->
  match ev with
  | Input e text => q = set_prop e value text p
  | _ => writes_only shown_area p q
  end.
Proof.
  intro Hstep. destruct ev; simpl in Hstep.
  - injection Hstep as <-. frame.
  - injection Hstep as <-. frame.
  - injection Hstep as <-. unfold writes_only. now rewrite removeExample_prop.
  - destruct (disabled p generate_btn); [discriminate|]. injection Hstep as <-.
    apply (writes_only_more (error_area ++ [(loading, display)]));
      [|apply generatePipeline_writes].
    intros x Hx. simpl in *. tauto.
  - destruct (disabled p test_btn); [discriminate|]. injection Hstep as <-.
    apply (writes_only_more error_area); [|apply testPipeline_writes].
    intros x Hx. simpl in *. tauto.
  - injection Hstep as <-. frame.
  - now injection Hstep as <-.
  - injection Hstep as <-. frame.
  - destruct k; try discriminate;
      (destruct (take Awaiting_eqb _ (awaiting p)) as [rest|]; [|discriminate]);
      injection Hstep as <-.
    + eapply writes_only_more;
        [|apply (checkHealth_settled_writes o (set_awaiting rest p))].
      intros x Hx. simpl in *. tauto.
    + eapply writes_only_more;
        [|apply (generatePipeline_settled_writes o (set_awaiting rest p))].
      intros x Hx. simpl in *. tauto.
    + eapply writes_only_more;
        [|apply (testPipeline_settled_writes o (set_awaiting rest p))].
      intros x Hx. simpl in *. tauto.
  - destruct (take Awaiting_eqb ClipboardWrite (awaiting p)) as [rest|];
      [|discriminate].
    injection Hstep as <-. destruct written; frame.
  - destruct (take Timer_eqb t (timers p)) as [rest|]; [|discriminate].
    injection Hstep as <-.
    eapply writes_only_more; [|apply (fire_writes t (set_timers rest p))].
    intros x Hx. simpl in *. tauto.
Qed.

(** ** What an event does to the examples and to the fields *)

Lemma step_examples (ev : Event) (p q : Page) :
  step ev p = Some q ->
  match ev with
  | DOMContentLoaded | Click_add_example =>
      exampleCount q = exampleCount p + 1 /\
      exampleItems q = exampleItems p ++ [new_item (exampleCount p + 1)]
  | Click_remove id =>
      exampleCount q = exampleCount p /\
      exampleItems q = renumber 0 (detach id (exampleItems p))
  | Input_example index output text =>
      exampleCount q = exampleCount p /\
      exampleItems q = type_into index output text (exampleItems p)
  | _ => exampleCount q = exampleCount p /\ exampleItems q = exampleItems p
  end.
Proof.
  intro Hstep. destruct ev; simpl in Hstep.
  - injection Hstep as <-. split; reflexivity.
  - injection Hstep as <-. split; reflexivity.
  - injection Hstep as <-. split; [|apply removeExample_items].
    apply removeExample_backstage.
  - destruct (disabled p generate_btn); [discriminate|]. injection Hstep as <-.
    destruct (generatePipeline_cases p)
      as [(_ & ->) | [(_ & _ & ->) | (_ & _ & ->)]]; split; reflexivity.
  - destruct (disabled p test_btn); [discriminate|]. injection Hstep as <-.
    destruct (testPipeline_cases p)
      as [(_ & ->) | [(_ & _ & ->) | (_ & _ & ->)]]; split; reflexivity.
  - injection Hstep as <-. split; reflexivity.
  - injection Hstep as <-. split; reflexivity.
  - injection Hstep as <-. split; reflexivity.
  - destruct k; try discriminate;
      (destruct (take Awaiting_eqb _ (awaiting p)) as [rest|]; [|discriminate]);
      injection Hstep as <-.
    + destruct (checkHealth_settled_backstage o (set_awaiting rest p))
        as ((Hc & Hi & _) & _). now split.
    + destruct (generatePipeline_settled_backstage o (set_awaiting rest p))
        as ((Hc & Hi & _) & _). now split.
    + destruct (testPipeline_settled_backstage o (set_awaiting rest p))
        as ((Hc & Hi & _) & _). now split.
  - destruct (take Awaiting_eqb ClipboardWrite (awaiting p)) as [rest|];
      [|discriminate].
    injection Hstep as <-. destruct written; split; reflexivity.
  - destruct (take Timer_eqb t (timers p)) as [rest|]; [|discriminate].
    injection Hstep as <-.
    destruct (fire_backstage t (set_timers rest p)) as ((Hc & Hi & _) & _).
    now split.
Qed.

Lemma element_eqb_eq (a b : element) : element_eqb a b = true <-> a = b.
Proof. destruct a, b; simpl; split; intro H; try reflexivity; discriminate. Qed.

Lemma value_not_shown (e : element) : ~ In (e, value) shown_area.
Proof. destruct e; simpl; intuition discriminate. Qed.

(** The script never writes into a form field: over any run of events,
    a field into which the user did not type holds at the end what it held
    at the start; and when no event of the run adds, removes or fills in an
    example, the example entries are the same, labels included. *)
Theorem fields_are_only_written_by_the_user
  (evs : list Event) (p q : Page) :
  run evs p = Some q ->
  (forall e,
     (forall ev, In ev evs -> ~ types_into e ev) ->
     prop q e value = prop p e value) /\
  ((forall ev, In ev evs -> ~ edits_examples ev) ->
   exampleItems q = exampleItems p /\ exampleCount q = exampleCount p).
Proof.
  revert p. induction evs as [|ev evs IH]; intros p Hrun; simpl in Hrun.
  - injection Hrun as <-. split; [reflexivity | now split].
  - destruct (step ev p) as [p'|] eqn:E; [|discriminate].
    destruct (IH p' Hrun) as [IHv IHe]. split.
    + intros e He. rewrite IHv by (intros ev' Hin; apply He; now right).
      assert (Hev : ~ types_into e ev) by (apply He; now left).
      assert (Hw := step_writes ev p p' E).
      destruct ev; try (apply Hw; apply value_not_shown).
      subst p'. simpl.
      destruct (element_eqb e0 e) eqn:Ee; [|reflexivity].
      apply element_eqb_eq in Ee. subst e0. destruct Hev. now exists text.
    + intro He. destruct IHe as [-> ->]; [intros ev' Hin; apply He; now right|].
      assert (Hev : ~ edits_examples ev) by (apply He; now left).
      assert (Hx := step_examples ev p p' E).
      destruct ev; simpl in Hev; try tauto; destruct Hx as [-> ->]; now split.
Qed.

(** ** Identifiers are not used twice *)

Lemma step_ids (ev : Event) (p q : Page) :
  step ev p = Some q ->
  exampleCount p <= exampleCount q /\
  forall x, In x (map exampleId (exampleItems q)) ->
            In x (map exampleId (exampleItems p)) \/ exampleCount p < x.
Proof.
  intro Hstep. assert (H := step_examples ev p q Hstep).
  destruct ev; destruct H as [Hc Hi]; rewrite Hc, Hi; (split; [lia|]);
    intros x Hx; auto.
  - rewrite map_app in Hx. apply in_app_or in Hx.
    destruct Hx as [Hx | [<- | []]]; [now left | right; simpl; lia].
  - rewrite map_app in Hx. apply in_app_or in Hx.
    destruct Hx as [Hx | [<- | []]]; [now left | right; simpl; lia].
  - rewrite renumber_exampleId in Hx. left. now apply detach_In in Hx.
  - rewrite type_into_exampleId in Hx. now left.
Qed.

(** An identifier that was given out and is no longer in the list never
    comes back: additions only hand out identifiers above the counter, and
    the counter never goes down. *)
Theorem identifiers_are_not_reused (evs : list Event) (p q : Page) (id : nat) :
  run evs p = Some q ->
  id <= exampleCount p ->
  ~ In id (map exampleId (exampleItems p)) ->
  ~ In id (map exampleId (exampleItems q)) /\ exampleCount p <= exampleCount q.
Proof.
  revert p. induction evs as [|ev evs IH]; intros p Hrun Hle Hnot;
    simpl in Hrun.
  - injection Hrun as <-. split; [exact Hnot | lia].
  - destruct (step ev p) as [p'|] eqn:E; [|discriminate].
    destruct (step_ids ev p p' E) as [Hc Hids].
    destruct (IH p' Hrun) as [H1 H2]; [lia | | split; [exact H1 | lia]].
    intro Hin. destruct (Hids id Hin) as [H|H]; [contradiction | lia].
Qed.

(** ** The health check gates nothing *)

Lemma collectFormData_ext (p q : Page) :
  (forall e, prop q e value = prop p e value) ->
  exampleItems q = exampleItems p ->
  collectFormData q = collectFormData p.
Proof.
  intros Hv Hi. unfold collectFormData. now rewrite !Hv, Hi.
Qed.

Lemma generatePipeline_sent (p : Page) :
  sent (generatePipeline p)
  = if validates (collectFormData p)
    then sent p ++ [generate_request p] else sent p.
Proof.
  unfold validates.
  change (taskDescription (collectFormData p))
    with (trim (prop p task_description value)).
  destruct (generatePipeline_cases p)
    as [(Ht & ->) | [(Ht & He & ->) | (Ht & He & ->)]]; rewrite Ht.
  - reflexivity.
  - now rewrite He.
  - destruct (examples (collectFormData p)); [now contradiction He|reflexivity].
Qed.

Lemma testPipeline_sent (p : Page) :
  sent (testPipeline p)
  = if negb (is_empty (trim (prop p test_input value))) && truthy (sessionId p)
    then sent p ++ [test_request p] else sent p.
Proof.
  destruct (testPipeline_cases p)
    as [(Ht & ->) | [(Ht & Hs & ->) | (Ht & Hs & ->)]];
    rewrite Ht, ?Hs; reflexivity.
Qed.

(** The health check is advisory: however it ends, it writes to the
    health indicator alone; the buttons, the session, the form and the
    examples are as before, and a click on either button sends what it
    would have sent. *)
Theorem health_check_gates_nothing (o : Outcome) (p : Page) :
  let q := checkHealth_settled o p in
  writes_only [(health_status, textContent); (health_status, className)] p q /\
  disabled q = disabled p /\ sessionId q = sessionId p /\
  collectFormData q = collectFormData p /\
  sent (generatePipeline q) = sent (generatePipeline p) /\
  sent (testPipeline q) = sent (testPipeline p).
Proof.
  intro q. subst q.
  destruct (checkHealth_settled_backstage o p) as ((Hc & Hi & Hs & Ha) & Hsid & Hd).
  assert (Hw := checkHealth_settled_writes o p).
  assert (Hv : forall e, prop (checkHealth_settled o p) e value = prop p e value).
  { intro e. apply Hw. destruct e; simpl; intuition discriminate. }
  assert (Hdata := collectFormData_ext p _ Hv Hi).
  split; [exact Hw|]. split; [exact Hd|]. split; [exact Hsid|].
  split; [exact Hdata|]. split.
  - rewrite !generatePipeline_sent. unfold generate_request.
    now rewrite Hdata, Hs.
  - rewrite !testPipeline_sent. unfold test_request. now rewrite Hv, Hsid, Hs.
Qed.

(** ** A generation that fails *)

(** A click on the generate button followed by a response that renders
    nothing (a rejected fetch, a body that cannot be read, a status that is
    not 2xx) ends with an error message and the button enabled, and leaves
    what an earlier generation put on the page where it was: the code, the
    prompt, the download links, the test section, the test output and the
    stored session. *)
Theorem failed_generation_keeps_earlier_result (o : Outcome) (p q : Page) :
  run [Click_generate; FetchSettled GenerateFetch o] p = Some q ->
  generation_fails o ->
  prop q status_message className = lit "message error" /\
  disabled q generate_btn = false /\
  prop q loading display = lit "none" /\
  sessionId q = sessionId p /\
  downloadLinks q = downloadLinks p /\
  prop q pipeline_code textContent = prop p pipeline_code textContent /\
  prop q synthetic_prompt textContent = prop p synthetic_prompt textContent /\
  prop q test_section display = prop p test_section display /\
  prop q test_output display = prop p test_output display /\
  prop q test_result textContent = prop p test_result textContent.
Proof.
  intros Hrun Hfails. simpl in Hrun.
  destruct (disabled p generate_btn); [discriminate|].
  destruct (take Awaiting_eqb GenerateFetch (awaiting (generatePipeline p)))
    as [rest|]; [|discriminate].
  injection Hrun as <-.
  set (p1 := set_awaiting rest (generatePipeline p)).
  destruct (generatePipeline_settled_fails o p1 Hfails) as (Hw & Hl & Hs & Hc).
  destruct (generatePipeline_settled_backstage o p1) as (_ & Hd & _).
  assert (Hw0 := generatePipeline_writes p).
  assert (Hkeep : forall e a,
             ~ In (e, a) (error_area ++ [(loading, display)]) ->
             prop (generatePipeline_settled o p1) e a = prop p e a).
  { intros e a Hn. rewrite (Hw e a Hn). apply (Hw0 e a Hn). }
  split; [exact Hc|]. split; [exact Hd|]. split.
  { clear. generate_cases o; reflexivity. }
  split.
  { rewrite Hs. apply generatePipeline_sessionId. }
  split.
  { rewrite Hl. subst p1.
    destruct (generatePipeline_cases p)
      as [(_ & ->) | [(_ & _ & ->) | (_ & _ & ->)]]; reflexivity. }
  repeat split; apply Hkeep; simpl; intuition discriminate.
Qed.

(** ** What is sent *)

Lemma validates_wellformed (p : Page) :
  validates (collectFormData p) = true ->
  wellformed_request (generate_request p).
Proof.
  unfold validates. intro H. apply andb_true_iff in H. destruct H as [Ht He].
  apply negb_true_iff in Ht, He.
  assert (Hm : ollamaModel (collectFormData p) <> []).
  { change (ollamaModel (collectFormData p))
      with (if is_empty (trim (prop p ollama_model value))
            then lit "llama3.2" else trim (prop p ollama_model value)).
    destruct (is_empty (trim (prop p ollama_model value))) eqn:E;
      [unfold lit; simpl; discriminate | now apply is_empty_false]. }
  unfold wellformed_request, generate_request. cbn [body url post].
  split; [reflexivity|]. split; [reflexivity|].
  split; [now apply is_empty_false|]. split; [exact Hm|]. split.
  - intro Hnil. rewrite Hnil in He. discriminate.
  - apply Forall_forall. intros [input output] Hin.
    destruct (collected_example p input output Hin) as (_ & _ & _ & _ & Hi & Ho).
    now split.
Qed.

Lemma step_sent (ev : Event) (p q : Page) :
  step ev p = Some q ->
  sent q = sent p \/
  exists r, sent q = sent p ++ [r] /\ wellformed_request r.
Proof.
  intro Hstep. destruct ev; simpl in Hstep.
  - injection Hstep as <-. right. eexists. split; [reflexivity|].
    split; reflexivity.
  - injection Hstep as <-. now left.
  - injection Hstep as <-. left. apply removeExample_backstage.
  - destruct (disabled p generate_btn); [discriminate|]. injection Hstep as <-.
    rewrite generatePipeline_sent.
    destruct (validates (collectFormData p)) eqn:E; [right | now left].
    eexists. split; [reflexivity | now apply validates_wellformed].
  - destruct (disabled p test_btn); [discriminate|]. injection Hstep as <-.
    rewrite testPipeline_sent.
    destruct (negb _ && truthy _) eqn:E; [right | now left].
    apply andb_true_iff in E. destruct E as [Ht Hs]. apply negb_true_iff in Ht.
    eexists. split; [reflexivity|]. simpl.
    repeat split; [exact Hs | now apply is_empty_false].
  - injection Hstep as <-. now left.
  - injection Hstep as <-. now left.
  - injection Hstep as <-. now left.
  - destruct k; try discriminate;
      (destruct (take Awaiting_eqb _ (awaiting p)) as [rest|]; [|discriminate]);
      injection Hstep as <-; left.
    + apply (checkHealth_settled_backstage o (set_awaiting rest p)).
    + apply (generatePipeline_settled_backstage o (set_awaiting rest p)).
    + apply (testPipeline_settled_backstage o (set_awaiting rest p)).
  - destruct (take Awaiting_eqb ClipboardWrite (awaiting p)) as [rest|];
      [|discriminate].
    injection Hstep as <-. left. now destruct written.
  - destruct (take Timer_eqb t (timers p)) as [rest|]; [|discriminate].
    injection Hstep as <-. left. apply (fire_backstage t (set_timers rest p)).
Qed.

(** Whatever the user does, the requests that go out are of three kinds
    and the backend can rely on their content: a GET of the health
    endpoint; a POST of a form whose description and model are non-empty
    and that has at least one example, every example with a non-empty
    input and a non-empty output; a POST of a test with a truthy session
    and a non-empty input.  Requests are only ever added to those already
    sent. *)
Theorem requests_are_wellformed (evs : list Event) (p q : Page) :
  run evs p = Some q ->
  (exists more, sent q = sent p ++ more /\ Forall wellformed_request more).
Proof.
  revert p. induction evs as [|ev evs IH]; intros p Hrun; simpl in Hrun.
  - injection Hrun as <-. exists []. split; [now rewrite app_nil_r | constructor].
  - destruct (step ev p) as [p'|] eqn:E; [|discriminate].
    destruct (IH p' Hrun) as (more & Hq & Hmore).
    destruct (step_sent ev p p' E) as [Hs | (r & Hs & Hr)]; rewrite Hs in Hq.
    + now exists more.
    + exists (r :: more). split; [now rewrite Hq, <- app_assoc | now constructor].
Qed.

(** ** Which session is stored *)

Lemma step_session (ev : Event) (p q : Page) :
  step ev p = Some q -> sessionId q = session_after ev (sessionId p).
Proof.
  intro Hstep. destruct ev; simpl in Hstep.
  - now injection Hstep as <-.
  - now injection Hstep as <-.
  - injection Hstep as <-. apply removeExample_backstage.
  - destruct (disabled p generate_btn); [discriminate|]. injection Hstep as <-.
    apply generatePipeline_sessionId.
  - destruct (disabled p test_btn); [discriminate|]. injection Hstep as <-.
    destruct (testPipeline_cases p)
      as [(_ & ->) | [(_ & _ & ->) | (_ & _ & ->)]]; reflexivity.
  - now injection Hstep as <-.
  - now injection Hstep as <-.
  - now injection Hstep as <-.
  - destruct k; try discriminate;
      (destruct (take Awaiting_eqb _ (awaiting p)) as [rest|]; [|discriminate]);
      injection Hstep as <-.
    + apply (checkHealth_settled_backstage o (set_awaiting rest p)).
    + rewrite generatePipeline_settled_sessionId.
      destruct o as [message | [|] [message | v]]; reflexivity.
    + apply (testPipeline_settled_backstage o (set_awaiting rest p)).
  - destruct (take Awaiting_eqb ClipboardWrite (awaiting p)) as [rest|];
      [|discriminate].
    injection Hstep as <-. now destruct written.
  - destruct (take Timer_eqb t (timers p)) as [rest|]; [|discriminate].
    injection Hstep as <-. apply (fire_backstage t (set_timers rest p)).
Qed.

(** The session that is stored after a run of events is the [sessionId]
    field of the last generation response that was [ok] with a body other
    than [null], whatever came before it (a later generation replaces the
    session of an earlier one, a failed one does not); with no such
    response it is the session the run started with. *)
Theorem stored_session_is_the_last_generated (evs : list Event) (p q : Page) :
  run evs p = Some q -> sessionId q = last_session evs (sessionId p).
Proof.
  revert p. induction evs as [|ev evs IH]; intros p Hrun; simpl in Hrun.
  - now injection Hrun as <-.
  - destruct (step ev p) as [p'|] eqn:E; [|discriminate].
    rewrite (IH p' Hrun). unfold last_session. simpl.
    now rewrite (step_session ev p p' E).
Qed.

(** ** The loading indicator *)

Lemma count_take_other (k k' : Awaiting) (l rest : list Awaiting) :
  take Awaiting_eqb k l = Some rest -> k <> k' ->
  count_occ Awaiting_eq_dec rest k' = count_occ Awaiting_eq_dec l k'.
Proof.
  intros Htake Hk. rewrite (take_count k l rest Htake k').
  destruct (Awaiting_eq_dec k k'); [contradiction | lia].
Qed.

Lemma step_loading (ev : Event) (p q : Page) :
  guarded p -> step ev p = Some q ->
  (count_awaiting GenerateFetch q = count_awaiting GenerateFetch p /\
   prop q loading display = prop p loading display) \/
  (count_awaiting GenerateFetch q = 1 /\ prop q loading display = lit "block") \/
  (count_awaiting GenerateFetch q = 0 /\ prop q loading display = lit "none").
Proof.
  intros [Hg _] Hstep. unfold count_awaiting. destruct ev; simpl in Hstep.
  - injection Hstep as <-. left. simpl. rewrite count_snoc.
    destruct (Awaiting_eq_dec HealthFetch GenerateFetch); [discriminate|].
    split; [lia | reflexivity].
  - injection Hstep as <-. left. now split.
  - injection Hstep as <-. left.
    destruct (removeExample_backstage id p) as (_ & _ & -> & _).
    now rewrite removeExample_prop.
  - destruct (disabled p generate_btn) eqn:Ed; [discriminate|].
    injection Hstep as <-.
    destruct (generatePipeline_cases p)
      as [(_ & ->) | [(_ & _ & ->) | (_ & _ & ->)]];
      [left; now split | left; now split |].
    right. left. split; [|reflexivity].
    destruct Hg as [H0 | [_ Hd]]; [|congruence].
    unfold count_awaiting in H0. simpl. rewrite count_snoc, H0.
    now destruct (Awaiting_eq_dec GenerateFetch GenerateFetch).
  - destruct (disabled p test_btn); [discriminate|]. injection Hstep as <-.
    destruct (testPipeline_cases p)
      as [(_ & ->) | [(_ & _ & ->) | (_ & _ & ->)]];
      left; try (now split).
    simpl. rewrite count_snoc.
    destruct (Awaiting_eq_dec TestFetch GenerateFetch); [discriminate|].
    split; [lia | reflexivity].
  - injection Hstep as <-. left. simpl. rewrite count_snoc.
    destruct (Awaiting_eq_dec ClipboardWrite GenerateFetch); [discriminate|].
    split; [lia | reflexivity].
  - injection Hstep as <-. left. split; [reflexivity|].
    simpl. destruct e; reflexivity.
  - injection Hstep as <-. left. now split.
  - destruct k; try discriminate;
      (destruct (take Awaiting_eqb _ (awaiting p)) as [rest|] eqn:E;
       [|discriminate]);
      injection Hstep as <-.
    + left.
      destruct (checkHealth_settled_backstage o (set_awaiting rest p))
        as ((_ & _ & _ & ->) & _).
      rewrite (checkHealth_settled_writes o (set_awaiting rest p))
        by (simpl; intuition discriminate).
      split; [|reflexivity].
      apply (count_take_other HealthFetch); [exact E | discriminate].
    + right. right.
      destruct (generatePipeline_settled_backstage o (set_awaiting rest p))
        as ((_ & _ & _ & ->) & _).
      split; [|clear; generate_cases o; reflexivity].
      assert (Hc := take_count _ _ _ E GenerateFetch). simpl in Hc.
      unfold one_in_flight, count_awaiting in Hg. simpl. lia.
    + left.
      destruct (testPipeline_settled_backstage o (set_awaiting rest p))
        as ((_ & _ & _ & ->) & _).
      rewrite (testPipeline_settled_writes o (set_awaiting rest p))
        by (simpl; intuition discriminate).
      split; [|reflexivity].
      apply (count_take_other TestFetch); [exact E | discriminate].
  - destruct (take Awaiting_eqb ClipboardWrite (awaiting p)) as [rest|] eqn:E;
      [|discriminate].
    injection Hstep as <-. left.
    split; [|now destruct written].
    destruct written; simpl;
      (apply (count_take_other ClipboardWrite); [exact E | discriminate]).
  - destruct (take Timer_eqb t (timers p)) as [rest|]; [|discriminate].
    injection Hstep as <-. left.
    destruct (fire_backstage t (set_timers rest p)) as ((_ & _ & _ & ->) & _).
    rewrite (fire_writes t (set_timers rest p)) by (simpl; intuition discriminate).
    now split.
Qed.

(** The loading indicator follows the generation request: on every page
    reached from one where nothing is pending, it is displayed while a
    generation is in flight, and while none is, it is hidden or still as
    the page was loaded. *)
Theorem loading_shows_while_generating (evs : list Event) (p0 p : Page) :
  awaiting p0 = [] -> run evs p0 = Some p ->
  (count_awaiting GenerateFetch p = 1 ->
   prop p loading display = lit "block") /\
  (count_awaiting GenerateFetch p = 0 ->
   prop p loading display = lit "none" \/
   prop p loading display = prop p0 loading display).
Proof.
  intros H0 Hrun.
  set (I := fun q : Page =>
              guarded q /\
              (count_awaiting GenerateFetch q = 1 ->
               prop q loading display = lit "block") /\
              (count_awaiting GenerateFetch q = 0 ->
               prop q loading display = lit "none" \/
               prop q loading display = prop p0 loading display)).
  assert (HI : I p).
  { apply (run_invariant I (fun _ => True)) with (evs := evs) (p := p0); auto.
    - intros ev q q' _ (Hg & H1 & Hn) Hstep. split; [|split].
      + now apply (step_guarded ev q).
      + intro Hc. destruct (step_loading ev q q' Hg Hstep)
          as [[Hsame Hl] | [[_ Hl] | [Hz _]]];
          [rewrite Hl; apply H1; congruence | exact Hl | congruence].
      + intro Hc. destruct (step_loading ev q q' Hg Hstep)
          as [[Hsame Hl] | [[Hone _] | [_ Hl]]];
          [rewrite Hl; apply Hn; congruence | congruence | now left].
    - split; [now apply nothing_awaited_guarded|].
      unfold count_awaiting. rewrite H0. simpl. split; [discriminate|].
      intros _. now right. }
  destruct HI as (_ & H1 & Hn). now split.
Qed.

(** ** What a result puts on the page *)

(** A generation response that is [ok], whose [filesGenerated] is a list
    and whose texts and filenames convert to strings, is rendered. *)
Lemma settled_result (result : jsval) (files : list jsval)
  (names : list jsstring) (message code prompt : jsstring) (p : Page) :
  toString (field result "optimizationMessage") = Some message ->
  domString (field result "pipelineCode") = Some code ->
  domString (field result "syntheticPrompt") = Some prompt ->
  files_named result files names ->
  let q := generatePipeline_settled (Response true (Json result)) p in
  (prop q status_message className = lit "message success" \/
   prop q status_message className = lit "message warning") /\
  prop q results_section display = lit "block" /\
  prop q status_message textContent
  = (if truthy (field result "optimizationSuccess")
     then check_mark else warning_mark) ++ message /\
  prop q pipeline_code textContent = code /\
  prop q synthetic_prompt textContent = prompt /\
  prop q loading display = lit "none" /\
  disabled q generate_btn = false /\
  timers q = timers p.
Proof.
  intros Hm Hcode Hprompt [Hfiles Hnames].
  destruct result; try discriminate.
  simpl in Hm, Hcode, Hprompt, Hfiles.
  unfold generatePipeline_settled, displayResults. js_unfold.
  rewrite Hfiles.
  destruct (truthy (lookup (lit "optimizationSuccess") props)); simpl;
    rewrite Hm; simpl; rewrite Hcode; simpl; rewrite Hprompt; simpl;
    rewrite each_links, (converted_names_all files names Hnames); simpl;
    repeat split; auto.
Qed.

(** A generation response that is [ok], whose [filesGenerated] is a list
    and whose texts and filenames convert to strings shows the results
    area, with the status text made of the marker and the
    [optimizationMessage], the [pipelineCode] and the [syntheticPrompt]
    as the texts of their two regions (a string as it is, nothing for a
    field that is missing or [null]); the loading indicator is hidden,
    the button enabled, and no error timer is set. *)
Theorem result_is_rendered (result : jsval) (files : list jsval)
  (names : list jsstring) (message code prompt : jsstring) (p : Page) :
  toString (field result "optimizationMessage") = Some message ->
  domString (field result "pipelineCode") = Some code ->
  domString (field result "syntheticPrompt") = Some prompt ->
  files_named result files names ->
  let q := generatePipeline_settled (Response true (Json result)) p in
  prop q results_section display = lit "block" /\
  prop q status_message textContent
  = (if truthy (field result "optimizationSuccess")
     then check_mark else warning_mark) ++ message /\
  prop q pipeline_code textContent = code /\
  prop q synthetic_prompt textContent = prompt /\
  (forall s, field result "pipelineCode" = VStr s -> code = s) /\
  (nullish (field result "pipelineCode") = true -> code = []) /\
  prop q loading display = lit "none" /\
  disabled q generate_btn = false /\
  timers q = timers p.
Proof.
  intros Hm Hcode Hprompt Hfiles q.
  destruct (settled_result result files names message code prompt p
              Hm Hcode Hprompt Hfiles)
    as (_ & Hr & Hs & Hc & Hp & Hl & Hd & Ht).
  fold q in Hr, Hs, Hc, Hp, Hl, Hd, Ht.
  repeat split; auto.
  - intros s Hs'. rewrite Hs' in Hcode. simpl in Hcode. congruence.
  - intro Hn. destruct (field result "pipelineCode"); try discriminate;
      simpl in Hcode; congruence.
Qed.

(** A generation response that is [ok] but whose [filesGenerated] is not
    a list, its texts converting, is reported as an error, with the
    message of the engine; by then the session of the response is stored,
    the code and the prompt are on the page, the old download links are
    gone and the test section is shown or hidden as the response says. *)
Theorem result_without_files_is_an_error
  (result : jsval) (message code prompt : jsstring) (p : Page) :
  nullish result = false ->
  (forall files, field result "filesGenerated" <> VArr files) ->
  toString (field result "optimizationMessage") = Some message ->
  domString (field result "pipelineCode") = Some code ->
  domString (field result "syntheticPrompt") = Some prompt ->
  let q := generatePipeline_settled (Response true (Json result)) p in
  shows_error (typeError (field result "filesGenerated") (lit "forEach")) q /\
  sessionId q = field result "sessionId" /\
  downloadLinks q = [] /\
  prop q pipeline_code textContent = code /\
  prop q synthetic_prompt textContent = prompt /\
  prop q test_section display
  = (if truthy (field result "optimizationSuccess")
     then lit "block" else lit "none") /\
  disabled q generate_btn = false.
Proof.
  intros Hn Hfiles Hm Hcode Hprompt q. subst q.
  unfold generatePipeline_settled, displayResults. js_unfold.
  destruct result; try discriminate; simpl in *;
    try (injection Hm as <-; injection Hcode as <-; injection Hprompt as <-;
         repeat split; fail).
  destruct (truthy (lookup (lit "optimizationSuccess") props)); simpl;
    rewrite Hm; simpl; rewrite Hcode; simpl; rewrite Hprompt; simpl;
    (destruct (lookup (lit "filesGenerated") props) eqn:E; simpl;
     try (repeat split; fail); now destruct (Hfiles items)).
Qed.

(** ** Messages and their timers *)

(** The timer of an error hides the whole results area, whatever it
    showed; it does nothing when the status message is no longer an error,
    as after a result was rendered in the meantime; and the timer of an
    older error hides a newer error before its own time is up. *)
Theorem error_timer_hides_the_results_area (m1 m2 : jsstring) (p : Page) :
  prop (fire HideError (showError m1 p)) results_section display = lit "none" /\
  (forall q,
     includes (prop q status_message className) (lit "error") = false ->
     fire HideError q = q) /\
  (forall result files names,
     texts_convert result -> files_named result files names ->
     let q := generatePipeline_settled (Response true (Json result))
                (showError m1 p) in
     In HideError (timers q) /\ fire HideError q = q /\
     prop q results_section display = lit "block") /\
  (let q := showError m2 (showError m1 p) in
   timers q = timers p ++ [HideError; HideError] /\
   shows_error m2 q /\
   prop (fire HideError q) results_section display = lit "none").
Proof.
  split; [reflexivity|]. split; [|split].
  - intros q H. simpl. now rewrite H.
  - intros result files names (Hm & Hcode & Hprompt) Hfiles q.
    destruct (toString (field result "optimizationMessage")) as [message|] eqn:Em;
      [|now contradiction Hm].
    destruct (domString (field result "pipelineCode")) as [code|] eqn:Ec;
      [|now contradiction Hcode].
    destruct (domString (field result "syntheticPrompt")) as [prompt|] eqn:Ep;
      [|now contradiction Hprompt].
    destruct (settled_result result files names message code prompt
                (showError m1 p) Em Ec Ep Hfiles)
      as (Hclass & Hdisplay & _ & _ & _ & _ & _ & Htimers).
    fold q in Hclass, Hdisplay, Htimers.
    split; [|split; [|exact Hdisplay]].
    + rewrite Htimers. simpl. apply in_or_app. right. now left.
    + unfold fire. destruct Hclass as [-> | ->]; reflexivity.
  - simpl. split; [now rewrite <- app_assoc|]. split; [repeat split | reflexivity].
Qed.

Lemma reparse_plain (s : jsstring) :
  forallb (fun c => negb (c =? 13)%N && negb (c =? 0)%N) s = true ->
  reparse s = s.
Proof.
  induction s as [|c s IH]; simpl; intro H; [reflexivity|].
  apply andb_true_iff in H. destruct H as [Hc Hs].
  apply andb_true_iff in Hc. destruct Hc as [H13 H0].
  apply negb_true_iff in H13, H0. rewrite H13, H0. now rewrite IH.
Qed.

(** The confirmation of a copy is temporary: its timer puts back the
    class the status message had, and its text as the HTML parser reads
    it back: the same text when it holds no carriage return and no
    U+0000, and otherwise that text with every CR LF and CR turned into
    LF and every U+0000 dropped.  No other property of any element
    differs from before.  The timer restores unconditionally: an error
    shown in the meantime is replaced by the old message as well. *)
Theorem success_message_is_restored (m : jsstring) (p : Page) :
  let q := showSuccess m p in
  timers q = timers p ++ [first_restore p] /\
  prop q status_message textContent = check_mark ++ m /\
  prop q status_message className = lit "message success" /\
  prop (fire (first_restore p) q) status_message textContent
  = reparse (prop p status_message textContent) /\
  (forallb (fun c => negb (c =? 13)%N && negb (c =? 0)%N)
     (prop p status_message textContent) = true ->
   forall e a, prop (fire (first_restore p) q) e a = prop p e a) /\
  writes_only [(status_message, textContent)] p (fire (first_restore p) q) /\
  (forall m',
     let r := fire (first_restore p) (showError m' q) in
     prop r status_message textContent
     = reparse (prop p status_message textContent) /\
     prop r status_message className = prop p status_message className).
Proof.
  simpl. split; [reflexivity|]. split; [reflexivity|]. split; [reflexivity|].
  split; [reflexivity|]. split; [|split].
  - intros H e a. destruct e, a; try reflexivity. simpl.
    now apply reparse_plain.
  - frame.
  - intro m'. split; reflexivity.
Qed.


(** ** The outcome of a test *)

(** A test response that is [ok], whose [output] and [note] convert to
    strings, shows the test output area with the [output] of the body as
    its text (nothing for an [output] that is missing or [null]),
    followed by a blank line and "Note: " with the [note] when the body
    has one; the test button is enabled again; nothing else on the page
    is written, and no error timer is set. *)
Theorem test_output_is_displayed
  (result : jsval) (output note : jsstring) (p : Page) :
  nullish result = false ->
  domString (field result "output") = Some output ->
  toString (field result "note") = Some note ->
  let q := testPipeline_settled (Response true (Json result)) p in
  prop q test_output display = lit "block" /\
  prop q test_result textContent
  = output
    ++ (if truthy (field result "note")
        then [10%N; 10%N] ++ lit "Note: " ++ note
        else []) /\
  writes_only [(test_output, display); (test_result, textContent)] p q /\
  disabled q test_btn = false /\
  timers q = timers p /\ sessionId q = sessionId p.
Proof.
  intros Hn Ho Hnote q. subst q. unfold testPipeline_settled. js_unfold.
  destruct result; try discriminate; simpl in *;
    try (injection Ho as <-);
    try (rewrite Ho; simpl;
         destruct (truthy (lookup (lit "note") props)); simpl;
         try (rewrite Hnote; simpl));
    rewrite ?app_nil_r; (split; [reflexivity|]); (split; [reflexivity|]);
    (split; [frame|]); repeat split.
Qed.

(** A test that fails shows an error and leaves the test output as it
    was: the message of the rejection when the fetch is rejected or the
    body cannot be read, and for a status that is not 2xx and a body other
    than [null] the [error] of the body when it is truthy and converts to
    a string, and "Failed to test pipeline" when it is missing or falsy.
    The button is enabled again and the session is kept. *)
Theorem failed_test_shows_error (o : Outcome) (p : Page) :
  test_fails o ->
  let q := testPipeline_settled o p in
  writes_only error_area p q /\
  prop q status_message className = lit "message error" /\
  disabled q test_btn = false /\ sessionId q = sessionId p /\
  match o with
  | Rejected message | Response _ (Unreadable message) => shows_error message q
  | Response false (Json result) =>
      nullish result = false ->
      (forall s, truthy (field result "error") = true ->
                 toString (field result "error") = Some s ->
                 shows_error s q) /\
      (truthy (field result "error") = false ->
       shows_error (lit "Failed to test pipeline") q)
  | _ => True
  end.
Proof.
  intros Hfails q. subst q.
  split; [|split; [|split; [|split]]].
  - test_cases o; simpl in Hfails; try contradiction; frame.
  - test_cases o; simpl in Hfails; try contradiction; reflexivity.
  - apply testPipeline_settled_backstage.
  - apply testPipeline_settled_backstage.
  - destruct o as [message | [|] [message | result]]; try exact I;
      try (repeat split; fail).
    intro Hn. destruct result; try discriminate;
      unfold testPipeline_settled; js_unfold;
      try (split; [intros msg Ht; discriminate | intros _; repeat split]).
    split.
    + intros msg Ht Hs. rewrite Ht. simpl. rewrite Hs. repeat split.
    + intro Ht. rewrite Ht. repeat split.
Qed.

(** ** Tabs *)

Lemma remove_active_names (l : list (jsstring * bool)) :
  map fst (remove_active l) = map fst l.
Proof. unfold remove_active. rewrite map_map. reflexivity. Qed.

Lemma remove_active_none (l : list (jsstring * bool)) :
  active (remove_active l) = [].
Proof. induction l as [|x l IH]; simpl; [reflexivity | exact IH]. Qed.

Lemma add_active_none (name : jsstring) (l : list (jsstring * bool)) :
  ~ In name (map fst l) -> add_active name l = None.
Proof.
  induction l as [|x l IH]; simpl; intro H; [reflexivity|].
  destruct (jsstring_eqb (fst x) name) eqn:E.
  - apply jsstring_eqb_eq in E. destruct H. now left.
  - rewrite IH; [reflexivity|]. tauto.
Qed.

Lemma add_active_some (name : jsstring) (l : list (jsstring * bool)) :
  In name (map fst l) ->
  exists l', add_active name l = Some l' /\
             map fst l' = map fst l /\
             (active l = [] -> active l' = [name]).
Proof.
  induction l as [|x l IH]; simpl; intro H; [contradiction|].
  destruct (jsstring_eqb (fst x) name) eqn:E.
  - apply jsstring_eqb_eq in E. eexists. split; [reflexivity|].
    split; [reflexivity|]. unfold active. simpl. subst name.
    destruct x as [n [|]]; simpl; intro Ha; [discriminate|]. now rewrite Ha.
  - destruct H as [H|H].
    { apply jsstring_eqb_eq in H. congruence. }
    destruct (IH H) as (l' & -> & Hn & Ha). eexists. split; [reflexivity|].
    simpl. split; [now rewrite Hn|]. unfold active in *. simpl.
    destruct x as [n [|]]; simpl; intro H0; [discriminate | now apply Ha].
Qed.

(** Switching to a tab that has a button and a pane completes and leaves
    exactly that button and exactly that pane active, whatever was active
    before; no button or pane is added, removed or reordered. *)
Theorem switchTab_activates_one_tab (tabName : jsstring) (t : Tabs) :
  In tabName (map fst (tab_btns t)) ->
  In (tabName ++ lit "-tab") (map fst (tab_panes t)) ->
  snd (switchTab tabName t) = Normal tt /\
  active (tab_btns (fst (switchTab tabName t))) = [tabName] /\
  active (tab_panes (fst (switchTab tabName t))) = [tabName ++ lit "-tab"] /\
  map fst (tab_btns (fst (switchTab tabName t))) = map fst (tab_btns t) /\
  map fst (tab_panes (fst (switchTab tabName t))) = map fst (tab_panes t).
Proof.
  intros Hb Hp. unfold switchTab. simpl.
  rewrite <- remove_active_names in Hb, Hp.
  destruct (add_active_some tabName _ Hb) as (btns & -> & Hbn & Hba).
  simpl.
  destruct (add_active_some (tabName ++ lit "-tab") _ Hp) as (panes & -> & Hpn & Hpa).
  simpl. rewrite Hbn, Hpn, !remove_active_names.
  repeat split; [apply Hba | apply Hpa]; apply remove_active_none.
Qed.

(** Switching to a tab that has no button throws once every button has
    been deactivated: no button is active any more, and the panes are as
    they were.  When the button is there but the pane is not, the button
    is active and no pane is. *)
Theorem switchTab_to_a_missing_tab (tabName : jsstring) (t : Tabs) :
  (~ In tabName (map fst (tab_btns t)) ->
   snd (switchTab tabName t) = Throw (typeError VNull (lit "classList")) /\
   active (tab_btns (fst (switchTab tabName t))) = [] /\
   tab_panes (fst (switchTab tabName t)) = tab_panes t) /\
  (In tabName (map fst (tab_btns t)) ->
   ~ In (tabName ++ lit "-tab") (map fst (tab_panes t)) ->
   snd (switchTab tabName t) = Throw (typeError VNull (lit "classList")) /\
   active (tab_btns (fst (switchTab tabName t))) = [tabName] /\
   active (tab_panes (fst (switchTab tabName t))) = []).
Proof.
  split.
  - intro Hb. unfold switchTab. simpl.
    rewrite <- remove_active_names in Hb. rewrite (add_active_none _ _ Hb).
    simpl. repeat split. apply remove_active_none.
  - intros Hb Hp. unfold switchTab. simpl.
    rewrite <- remove_active_names in Hb, Hp.
    destruct (add_active_some tabName _ Hb) as (btns & -> & Hbn & Hba).
    simpl. rewrite (add_active_none _ _ Hp). simpl.
    repeat split; [apply Hba|]; apply remove_active_none.
Qed.
End Engine.

(** * The properties at work *)

Lemma C1_add_labels_by_identifier_witness :
  map exampleNumber
    (exampleItems (addExample (removeExample 1 (addExample (addExample blank)))))
  = [label 1; label 3].
Proof.
  exact (proj1 (proj2 (C1_add_labels_by_identifier blank eq_refl eq_refl))).
Defined.

Lemma C2_generate_validates_witness :
  valid_form summarize_form /\
  sent (generatePipeline blank) = sent blank.
Proof.
  split.
  - apply (proj1 (C2_generate_validates summarize_form)).
    vm_compute. discriminate.
  - apply (proj2 (C2_generate_validates blank)).
    intros [H _]. now apply H.
Defined.



(** C4, where the claim as stated fails: a second generation is answered
    with status 200 and the body [null], or with a body that cannot be
    read; the session of the first generation stays stored. *)
Lemma C4_counterexample_null_body :
  sessionId (generating_again v8_typeError) = VStr (lit "session-1") /\
  sessionId (generatePipeline_settled v8_typeError
               (Response true (Json VNull)) (generating_again v8_typeError))
  = VStr (lit "session-1") /\
  sessionId (generatePipeline_settled v8_typeError
               (Response true (Unreadable (lit "Unexpected end of JSON input")))
               (generating_again v8_typeError))
  = VStr (lit "session-1").
Proof.
  repeat split.
Defined.

Lemma C5_test_needs_input_and_session_witness :
  sent (testPipeline (set_prop test_input value (lit "Hi") loaded)) = sent loaded.
Proof.
  apply (proj1 (proj2 (C5_test_needs_input_and_session v8_typeError
                         (set_prop test_input value (lit "Hi") loaded)))).
  right. reflexivity.
Defined.

(** C6, where the claim as stated fails: the body of a 500 response
    carries an [error] field that is the empty string; what is shown after
    the marker is the generic message, not that field. *)
Lemma C6_counterexample_empty_error :
  field (VObj empty_error) "error" = VStr [] /\
  prop (generatePipeline_settled v8_typeError
          (Response false (Json (VObj empty_error))) summarize_form)
    status_message textContent
  = error_mark ++ lit "Failed to generate pipeline" /\
  error_mark ++ lit "Failed to generate pipeline" <> error_mark ++ [].
Proof.
  split; [reflexivity|]. split; [reflexivity|].
  vm_compute. discriminate.
Defined.

Lemma C6_error_field_or_generic_witness :
  shows_error (lit "model not found")
    (generatePipeline_settled v8_typeError
       (Response false (Json (VObj model_not_found))) summarize_form).
Proof.
  apply (proj1 (proj2 (C6_error_field_or_generic v8_typeError summarize_form))
           (VObj model_not_found) (lit "model not found")).
  - reflexivity.
  - vm_compute. discriminate.
Defined.



Lemma C8_health_indicator_witness :
  health_positive
    (checkHealth_settled v8_typeError
       (Response true (Json (VObj healthy_running))) loaded) /\
  health_start_runtime
    (checkHealth_settled v8_typeError
       (Response true (Json (VObj healthy_stopped))) loaded).
Proof.
  split.
  - apply (proj1 (C8_health_indicator v8_typeError loaded)).
    + reflexivity.
    + split; reflexivity.
  - apply (proj1 (proj2 (C8_health_indicator v8_typeError loaded))).
    + reflexivity.
    + intros [_ H]. vm_compute in H. discriminate.
Defined.

(** C8, where the claim as stated fails: the health request is answered
    with status 200 and the body [null].  The request did not fail, and
    the response is not "healthy and running", yet the indicator is not
    the advice to start the runtime but the cannot-connect message.  A
    response with status 200 whose body is not JSON ends the same way. *)
Lemma C8_counterexample_null_body :
  prop (checkHealth_settled v8_typeError (Response true (Json VNull)) loaded)
    health_status textContent
  = error_mark ++ lit "Cannot connect to backend" /\
  prop (checkHealth_settled v8_typeError
          (Response true (Unreadable (lit "Unexpected end of JSON input")))
          loaded)
    health_status textContent
  = error_mark ++ lit "Cannot connect to backend" /\
  error_mark ++ lit "Cannot connect to backend"
  <> warning_mark ++ lit "Ollama is not running - Run: ollama serve".
Proof.
  split; [reflexivity|]. split; [reflexivity|]. vm_compute. discriminate.
Defined.

Lemma C9_button_guards_request_witness :
  (exists q,
     generatePipeline summarize_form
     = fetch (generate_request summarize_form) GenerateFetch q /\
     disabled q generate_btn = true /\
     sent q = sent summarize_form /\ awaiting q = awaiting summarize_form) /\
  (exists q,
     testPipeline (ready_to_test v8_typeError)
     = fetch (test_request (ready_to_test v8_typeError)) TestFetch q /\
     disabled q test_btn = true /\
     sent q = sent (ready_to_test v8_typeError) /\
     awaiting q = awaiting (ready_to_test v8_typeError)) /\
  (disabled generating generate_btn = true /\
   step v8_typeError Click_generate generating = None) /\
  (disabled (testing v8_typeError) test_btn = true /\
   step v8_typeError Click_test (testing v8_typeError) = None).
Proof.
  assert (Hgenerating : run v8_typeError submit_summarize blank = Some generating)
    by (vm_compute; reflexivity).
  assert (Htesting : run v8_typeError submit_test blank
                     = Some (testing v8_typeError))
    by (vm_compute; reflexivity).
  split; [|split; [|split]].
  - apply (proj1 (C9_button_guards_request v8_typeError summarize_form)).
    vm_compute. reflexivity.
  - apply (proj1 (proj2 (proj2
             (C9_button_guards_request v8_typeError
                (ready_to_test v8_typeError))))).
    + vm_compute. discriminate.
    + vm_compute. reflexivity.
  - apply (proj1 (proj2 (proj2
             (proj2 (proj2 (proj2 (proj2
                (C9_button_guards_request v8_typeError generating))))
                blank submit_summarize eq_refl Hgenerating)))).
    vm_compute. reflexivity.
  - apply (proj2 (proj2 (proj2
             (proj2 (proj2 (proj2 (proj2
                (C9_button_guards_request v8_typeError (testing v8_typeError)))))
                blank submit_test eq_refl Htesting)))).
    vm_compute. reflexivity.
Defined.

Lemma C10_remove_absent_id_witness :
  labelled_by_position (exampleItems (removeExample 7 summarize_form)) /\
  map inputValue (exampleItems (removeExample 7 summarize_form))
  = [lit "Hello world"].
Proof.
  assert (H := C10_remove_absent_id 7 summarize_form).
  simpl in H.
  assert (Habsent : forall e : ExampleItem,
             In e (exampleItems summarize_form) -> exampleId e <> 7).
  { intros e [<- | []]. discriminate. }
  destruct (H Habsent) as (_ & _ & Hin & _ & Hl & _).
  split; [exact Hl | exact Hin].
Defined.

Lemma remove_present_id_witness :
  map data (exampleItems (removeExample 1 (addExample summarize_form)))
  = [(2, [], [])].
Proof.
  assert (H := remove_present_id 1 (addExample summarize_form)).
  simpl in H.
  assert (Hnd : NoDup [1; 2]).
  { repeat constructor; simpl; intuition discriminate. }
  destruct (H Hnd (or_introl eq_refl)) as (_ & Hdata & _).
  exact Hdata.
Defined.

Lemma adds_then_removals_contiguous_witness :
  map exampleNumber (exampleItems (removals [2] (Nat.iter 3 addExample blank)))
  = [label 1; label 2].
Proof.
  assert (H := adds_then_removals_contiguous blank 3 [2] eq_refl eq_refl).
  simpl in H. destruct H as [_ H].
  assert (Hnd : NoDup [2]) by (repeat constructor; intros []).
  assert (Hrange : forall id, 2 = id \/ False -> 1 <= id <= 3)
    by (intros id [<- | []]; lia).
  exact (proj2 (H Hnd Hrange)).
Defined.

Lemma valid_form_is_sent_witness :
  examples (collectFormData summarize_form)
  = [(lit "Hello world", lit "Greeting")] /\
  sent (generatePipeline summarize_form)
  = sent summarize_form ++ [generate_request summarize_form].
Proof.
  assert (Hvalid : valid_form summarize_form).
  { split; [vm_compute; discriminate|].
    eexists. split; [left; reflexivity|].
    split; vm_compute; discriminate. }
  assert (Hfresh : pristine blank) by (repeat split).
  destruct (valid_form_is_sent v8_typeError blank summarize_form
              [DOMContentLoaded;
               Input task_description (lit "Summarize text");
               Input_example 0 false (lit "Hello world");
               Input_example 0 true (lit "Greeting")]
              Hfresh eq_refl Hvalid) as (_ & Hsent & _ & _ & Hex).
  split; [|exact Hsent]. rewrite Hex. reflexivity.
Defined.

Lemma collected_form_is_normalised_witness :
  ollamaModel (collectFormData summarize_form) = lit "llama3.2" /\
  taskDescription (collectFormData
                     (set_prop task_description value (lit "  Summarize text ")
                        summarize_form))
  = lit "Summarize text".
Proof.
  split.
  - apply (proj1 (proj2 (proj2 (proj2 (proj2 (proj2
             (collected_form_is_normalised summarize_form))))))).
    reflexivity.
  - reflexivity.
Defined.

Lemma fields_are_only_written_by_the_user_witness :
  prop generating ollama_model value = prop blank ollama_model value /\
  prop generating task_description value = lit "Summarize text".
Proof.
  split; [|reflexivity].
  apply (proj1 (fields_are_only_written_by_the_user v8_typeError
                  submit_summarize blank generating eq_refl) ollama_model).
  intros ev Hin [text Heq]. subst ev. simpl in Hin.
  repeat (destruct Hin as [Hin | Hin]; try discriminate). exact Hin.
Defined.

Lemma identifiers_are_not_reused_witness :
  ~ In 1 (map exampleId
            (exampleItems (addExample (removeExample 1 (addExample loaded)))))
  /\ 2 <= 3.
Proof.
  apply (identifiers_are_not_reused v8_typeError [Click_add_example]
           (removeExample 1 (addExample loaded))
           (addExample (removeExample 1 (addExample loaded))) 1 eq_refl).
  - simpl. lia.
  - simpl. intros [H | []]. discriminate.
Defined.

Lemma failed_generation_keeps_earlier_result_witness :
  prop (generated v8_typeError (Response false (Json (VObj model_not_found))))
    status_message className = lit "message error" /\
  sessionId (generated v8_typeError
               (Response false (Json (VObj model_not_found))))
  = sessionId summarize_form.
Proof.
  destruct (failed_generation_keeps_earlier_result v8_typeError
              (Response false (Json (VObj model_not_found))) summarize_form
              (generated v8_typeError
                 (Response false (Json (VObj model_not_found))))
              eq_refl I) as (Hc & _ & _ & Hs & _).
  split; [exact Hc | exact Hs].
Defined.

Lemma requests_are_wellformed_witness :
  exists more,
    sent generating = sent blank ++ more /\ Forall wellformed_request more.
Proof.
  exact (requests_are_wellformed v8_typeError submit_summarize blank generating
           eq_refl).
Defined.

Lemma stored_session_is_the_last_generated_witness :
  sessionId (generated v8_typeError
               (Response true (Json (VObj generation_result))))
  = VStr (lit "session-1").
Proof.
  exact (stored_session_is_the_last_generated v8_typeError
           (submit_summarize
            ++ [FetchSettled GenerateFetch
                  (Response true (Json (VObj generation_result)))])
           blank
           (generated v8_typeError
              (Response true (Json (VObj generation_result))))
           eq_refl).
Defined.

Lemma loading_shows_while_generating_witness :
  prop generating loading display = lit "block".
Proof.
  apply (proj1 (loading_shows_while_generating v8_typeError submit_summarize
                  blank generating eq_refl eq_refl)).
  reflexivity.
Defined.

Lemma test_output_is_displayed_witness :
  prop (testPipeline_settled v8_typeError
          (Response true (Json (VObj test_result_with_note))) loaded)
    test_result textContent
  = lit "A greeting" ++ [10%N; 10%N] ++ lit "Note: " ++ lit "cached".
Proof.
  exact (proj1 (proj2 (test_output_is_displayed v8_typeError
                         (VObj test_result_with_note)
                         (lit "A greeting") (lit "cached") loaded
                         eq_refl eq_refl eq_refl))).
Defined.

Lemma failed_test_shows_error_witness :
  shows_error (lit "Failed to fetch")
    (testPipeline_settled v8_typeError (Rejected (lit "Failed to fetch")) loaded)
  /\
  shows_error (lit "model not found")
    (testPipeline_settled v8_typeError
       (Response false (Json (VObj model_not_found))) loaded).
Proof.
  split.
  - exact (proj2 (proj2 (proj2 (proj2
             (failed_test_shows_error v8_typeError
                (Rejected (lit "Failed to fetch")) loaded I))))).
  - apply (proj1 (proj2 (proj2 (proj2 (proj2
             (failed_test_shows_error v8_typeError
                (Response false (Json (VObj model_not_found))) loaded I))))
             eq_refl) (lit "model not found")); reflexivity.
Defined.

Lemma result_is_rendered_witness :
  prop (generated v8_typeError
          (Response true (Json (VObj generation_result))))
    pipeline_code textContent
  = lit "import dspy" /\
  prop (generated v8_typeError
          (Response true (Json (VObj generation_result))))
    status_message textContent
  = check_mark ++ lit "Pipeline optimized".
Proof.
  assert (Hfiles : files_named (VObj generation_result)
                     [VStr (lit "generated_pipeline.py");
                      VStr (lit "task_config.json")]
                     [lit "generated_pipeline.py"; lit "task_config.json"])
    by (split; reflexivity).
  destruct (result_is_rendered v8_typeError (VObj generation_result) _ _
              (lit "Pipeline optimized") (lit "import dspy")
              (lit "Generate more examples")
              (set_awaiting [HealthFetch] generating)
              eq_refl eq_refl eq_refl Hfiles)
    as (_ & Hs & Hc & _).
  split; [exact Hc | exact Hs].
Defined.

Lemma result_without_files_is_an_error_witness :
  shows_error (lit "Cannot read properties of undefined (reading 'forEach')")
    (generated v8_typeError (Response true (Json (VObj result_without_files))))
  /\
  sessionId (generated v8_typeError
               (Response true (Json (VObj result_without_files))))
  = VStr (lit "session-2").
Proof.
  assert (Hfiles : forall files,
             field (VObj result_without_files) "filesGenerated" <> VArr files).
  { intros files H. vm_compute in H. discriminate. }
  destruct (result_without_files_is_an_error v8_typeError
              (VObj result_without_files) (lit "undefined") [] []
              (set_awaiting [HealthFetch] generating)
              eq_refl Hfiles eq_refl eq_refl eq_refl)
    as (He & Hs & _).
  split; [exact He | exact Hs].
Defined.

Lemma switchTab_activates_one_tab_witness :
  active (tab_btns (fst (switchTab v8_typeError (lit "prompt") two_tabs)))
  = [lit "prompt"] /\
  active (tab_panes (fst (switchTab v8_typeError (lit "prompt") two_tabs)))
  = [lit "prompt-tab"].
Proof.
  destruct (switchTab_activates_one_tab v8_typeError (lit "prompt") two_tabs)
    as (_ & Hb & Hp & _).
  - right. left. reflexivity.
  - right. left. reflexivity.
  - split; [exact Hb | exact Hp].
Defined.
